(** * A todo list over SQLite: the persistence layer, the server actions
      and the optimistic toggle reducer

    The development follows three source files:
    - [src/lib/database.ts]: the [todoQueries] object over a SQLite file;
    - the server actions ([createTodoAction], [toggleTodoAction], ...);
    - the [useOptimistic] reducer of the [TodoItem] component.

    Conventions of the embedding.
    - A JavaScript string is a [string]; every [ascii] stands for one code
      unit below 256, so [String.length] is the JavaScript [length].
    - [CURRENT_TIMESTAMP] is an integer number of seconds, passed to every
      operation that reads the clock as its argument [now]; the textual
      form SQLite stores has a fixed width, so its order is the order of
      these integers.
    - A TEXT column without NOT NULL holds [option string]: [None] is SQL
      NULL, which JavaScript reads and binds as [null].
    - The [todos] table is a finite map from rowid to row, as an INTEGER
      PRIMARY KEY table is; failures of the storage medium are not modelled,
      the exceptions the code itself provokes are. *)

From Stdlib Require Import ZArith String Ascii List Lia Permutation Sorted.
From stdpp Require Import base option list sorting gmap.

Local Open Scope Z_scope.
Local Open Scope string_scope.

(** ** JavaScript strings and truthiness *)

Module JS.

(** The code units below 256 that are WhiteSpace or LineTerminator:
    TAB, LF, VT, FF, CR, SP and NBSP. *)
Definition isWhiteSpace (c : ascii) : bool :=
  let n := N_of_ascii c in
  ((n =? 9) || (n =? 10) || (n =? 11) || (n =? 12) || (n =? 13)
   || (n =? 32) || (n =? 160))%N.

Fixpoint trimStart (s : string) : string :=
  match s with
  | EmptyString => EmptyString
  | String c s' => if isWhiteSpace c then trimStart s' else s
  end.

Fixpoint trimEnd (s : string) : string :=
  match s with
  | EmptyString => EmptyString
  | String c s' =>
      match trimEnd s' with
      | EmptyString => if isWhiteSpace c then EmptyString else String c EmptyString
      | r => String c r
      end
  end.

(** [s.trim()] *)
Definition trim (s : string) : string := trimEnd (trimStart s).

(** [s.length] *)
Definition length (s : string) : Z := Z.of_nat (String.length s).

(** [!v] for a value that is a string or [null]. *)
Definition not (v : option string) : bool :=
  match v with
  | None => true
  | Some s => match s with EmptyString => true | _ => false end
  end.

(** [v || d] for a value that is a string or [null]. *)
Definition or (v : option string) (d : string) : string :=
  match v with
  | None => d
  | Some s => match s with EmptyString => d | _ => s end
  end.

(** [Boolean(n)] for an integer. *)
Definition Boolean (n : Z) : bool := negb (Z.eqb n 0).

(** [FormData]: the submitted fields in order; [get] returns the first
    value of a name, or [null]. *)
Definition FormData : Type := list (string * string).

Fixpoint get (formData : FormData) (name : string) : option string :=
  match formData with
  | [] => None
  | (k, v) :: rest => if String.eqb k name then Some v else get rest name
  end.

End JS.

(** ** SQLite: the LIKE operator *)

Module Sqlite.

(** ASCII lower case, the only case folding the built-in LIKE does. *)
Definition fold (c : ascii) : ascii :=
  let n := N_of_ascii c in
  if ((65 <=? n) && (n <=? 90))%N then ascii_of_N (n + 32) else c.

Definition is_percent (c : ascii) : bool := Ascii.eqb c "%".
Definition is_underscore (c : ascii) : bool := Ascii.eqb c "_".

(** The comparison at the heart of LIKE, without ESCAPE and with the
    default [case_sensitive_like = OFF], on strings that hold no NUL. A
    percent sign matches any run of characters, an underscore any one
    character, every other character itself up to ASCII case. *)
Fixpoint patternCompare (pattern text : string) : bool :=
  match pattern with
  | EmptyString => match text with EmptyString => true | _ => false end
  | String p pattern' =>
      if is_percent p then
        (fix any_run (t : string) : bool :=
           patternCompare pattern' t
           || match t with
              | EmptyString => false
              | String _ t' => any_run t'
              end) text
      else
        match text with
        | EmptyString => false
        | String c text' =>
            (is_underscore p || Ascii.eqb (fold p) (fold c))
            && patternCompare pattern' text'
        end
  end.

Definition is_nul (c : ascii) : bool := Ascii.eqb c "000".

(** The comparison reads its operands as C strings: what comes before
    the first NUL. *)
Fixpoint until_nul (s : string) : string :=
  match s with
  | EmptyString => EmptyString
  | String c s' => if is_nul c then EmptyString else String c (until_nul s')
  end.

(** The bytes of the UTF-8 text a string is bound as: one for a code unit
    below 128, two for the others below 256. *)
Definition utf8_bytes_of (c : ascii) : Z :=
  if (N_of_ascii c <? 128)%N then 1 else 2.

Fixpoint utf8_bytes (s : string) : Z :=
  match s with
  | EmptyString => 0
  | String c s' => utf8_bytes_of c + utf8_bytes s'
  end.

Definition SQLITE_MAX_LIKE_PATTERN_LENGTH : Z := 50000.

(** What the comparison answers when the pattern is accepted. *)
Definition matches (pattern text : string) : bool :=
  patternCompare (until_nul pattern) (until_nul text).

(** [like pattern text]: [text LIKE pattern]. A pattern of more bytes than
    the limit, NUL and what follows it included, is the error 'LIKE or
    GLOB pattern too complex', here [None]. *)
Definition like (pattern text : string) : option bool :=
  if (SQLITE_MAX_LIKE_PATTERN_LENGTH <? utf8_bytes pattern)%Z then None
  else Some (matches pattern text).

End Sqlite.

(** ** The database layer: [src/lib/database.ts] *)

(** A TEXT column that may hold NULL. *)
Definition sqltext : Type := option string.

(** [interface Todo] *)
Module Todo.
Record t : Type := mk {
  id : Z;
  title : string;
  completed : bool;
  category : sqltext;
  priority : sqltext;
  createdAt : Z;
  updatedAt : Z
}.
End Todo.

(** [interface Category] *)
Module Category.
Record t : Type := mk {
  id : Z;
  name : string;
  color : sqltext;
  count : Z
}.
End Category.

(** A row of the [todos] table without its rowid [id], which is the key of
    the map. [completed] is the INTEGER SQLite stores for the BOOLEAN. *)
Module todos.
Record row : Type := mk {
  title : string;
  completed : Z;
  category : sqltext;
  priority : sqltext;
  created_at : Z;
  updated_at : Z
}.
End todos.

(** A row of the [categories] table. *)
Module categories.
Record row : Type := mk {
  id : Z;
  name : string;
  color : sqltext
}.
End categories.

(** The database file: both tables and the AUTOINCREMENT counter that
    [sqlite_sequence] keeps for [todos]. *)
Record Database : Type := mkDatabase {
  db_todos : gmap Z todos.row;
  db_todos_seq : Z;
  db_categories : list categories.row
}.

(** What the code can throw: a [TypeError] of JavaScript (a property read
    on [undefined]) and the [SqliteError] of better-sqlite3. *)
Inductive exn : Type :=
| TypeError
| SqliteError.

Inductive outcome (A : Type) : Type :=
| Returns (a : A)
| Throws (e : exn).
Arguments Returns {A} a.
Arguments Throws {A} e.

(** A statement sequence over the database: it always leaves a database
    behind (there are no transactions), and returns or throws. *)
Definition M (A : Type) : Type := Database -> Database * outcome A.

Definition ret {A} (a : A) : M A := fun db => (db, Returns a).
Definition throw {A} (e : exn) : M A := fun db => (db, Throws e).
Definition bind {A B} (m : M A) (k : A -> M B) : M B :=
  fun db =>
    match m db with
    | (db', Returns a) => k a db'
    | (db', Throws e) => (db', Throws e)
    end.
(** [try { m } catch (error) { h }] *)
Definition try_catch {A} (m : M A) (h : exn -> M A) : M A :=
  fun db =>
    match m db with
    | (db', Returns a) => (db', Returns a)
    | (db', Throws e) => h e db'
    end.
Definition read {A} (f : Database -> A) : M A := fun db => (db, Returns (f db)).
Definition write (f : Database -> Database) : M unit := fun db => (f db, Returns tt).

Notation "x <- m ;; k" := (bind m (fun x => k))
  (at level 100, m at next level, right associativity).
Notation "m ;;; k" := (bind m (fun _ => k))
  (at level 100, k at level 200, right associativity).

(** The schema script of [getDatabase], run on a new file: two empty
    tables and the four seeded categories, numbered as inserted. *)
Definition getDatabase : Database :=
  {| db_todos := ∅;
     db_todos_seq := 0;
     db_categories :=
       [ categories.mk 1 "general" (Some "#6366f1");
         categories.mk 2 "work" (Some "#dc2626");
         categories.mk 3 "personal" (Some "#059669");
         categories.mk 4 "shopping" (Some "#d97706") ] |}.

(** [ORDER BY completed ASC, created_at DESC] on the rows of [todos]. SQL
    leaves the order of rows equal on both keys open; SQLite returns them
    in the order of its scan of the table, by rowid. *)
Definition order_by (a b : Z * todos.row) : Prop :=
  todos.completed a.2 < todos.completed b.2
  \/ (todos.completed a.2 = todos.completed b.2
      /\ (todos.created_at b.2 < todos.created_at a.2
          \/ (todos.created_at b.2 = todos.created_at a.2 /\ a.1 <= b.1))).

#[global] Instance order_by_dec : RelDecision order_by :=
  fun a b =>
    decide (todos.completed a.2 < todos.completed b.2
            \/ (todos.completed a.2 = todos.completed b.2
                /\ (todos.created_at b.2 < todos.created_at a.2
                    \/ (todos.created_at b.2 = todos.created_at a.2
                        /\ a.1 <= b.1)))).

(** [ORDER BY c.name]: TEXT under the BINARY collation. *)
Definition order_by_name (a b : Category.t) : Prop :=
  String.leb (Category.name a) (Category.name b) = true.

#[global] Instance order_by_name_dec : RelDecision order_by_name :=
  fun a b => decide (String.leb (Category.name a) (Category.name b) = true).

(** The columns every SELECT on [todos] lists, with the conversion each
    query applies: [{...row, completed: Boolean(row.completed)}]. *)
Definition to_Todo (r : Z * todos.row) : Todo.t :=
  {| Todo.id := r.1;
     Todo.title := todos.title r.2;
     Todo.completed := JS.Boolean (todos.completed r.2);
     Todo.category := todos.category r.2;
     Todo.priority := todos.priority r.2;
     Todo.createdAt := todos.created_at r.2;
     Todo.updatedAt := todos.updated_at r.2 |}.

(** [SELECT ... FROM todos WHERE condition ORDER BY completed ASC, created_at DESC]
    for a condition that cannot fail. *)
Definition select_todos (condition : Z * todos.row -> bool) (db : Database)
  : list (Z * todos.row) :=
  merge_sort order_by (List.filter condition (map_to_list (db_todos db))).

(** A WHERE clause whose condition can fail: it is evaluated row by row,
    and the first error ends the statement. *)
Fixpoint where_rows {A} (condition : A -> option bool) (rows : list A)
  : option (list A) :=
  match rows with
  | [] => Some []
  | r :: rows' =>
      match condition r with
      | None => None
      | Some keep =>
          match where_rows condition rows' with
          | None => None
          | Some kept => Some (if keep then r :: kept else kept)
          end
      end
  end.

(** [SELECT ... FROM todos WHERE id = ?] with [.get(id)]: the row or
    [undefined]. *)
Definition select_by_id (id : Z) (db : Database) : option (Z * todos.row) :=
  (fun r => (id, r)) <$> db_todos db !! id.

(** The largest rowid in the table, 0 when it is empty. *)
Definition max_rowid (m : gmap Z todos.row) : Z :=
  foldr Z.max 0 (fst <$> map_to_list m).

(** The updatable fields: [Partial<Pick<Todo, 'title' | 'completed' |
    'category' | 'priority'>>]. [None] is an absent key. *)
Record Updates : Type := mkUpdates {
  u_title : option string;
  u_completed : option bool;
  u_category : option sqltext;
  u_priority : option sqltext
}.

(** [Object.keys(convertedUpdates).length] is 0. *)
Definition no_keys (u : Updates) : bool :=
  match u_title u, u_completed u, u_category u, u_priority u with
  | None, None, None, None => true
  | _, _, _, _ => false
  end.

(** [UPDATE todos SET <fields>, updated_at = CURRENT_TIMESTAMP] on a row;
    a boolean is bound as [value ? 1 : 0]. *)
Definition set_fields (u : Updates) (now : Z) (r : todos.row) : todos.row :=
  {| todos.title := default (todos.title r) (u_title u);
     todos.completed :=
       match u_completed u with
       | Some value => if value then 1 else 0
       | None => todos.completed r
       end;
     todos.category := default (todos.category r) (u_category u);
     todos.priority := default (todos.priority r) (u_priority u);
     todos.created_at := todos.created_at r;
     todos.updated_at := now |}.

(** The argument of [create]: [Omit<Todo, 'id' | 'createdAt' | 'updatedAt'>]. *)
Record NewTodo : Type := mkNewTodo {
  n_title : string;
  n_completed : bool;
  n_category : sqltext;
  n_priority : sqltext
}.

(** One row of [categories c LEFT JOIN todos t ON c.name = t.category],
    reduced to the column [t.id] that [COUNT] looks at: the ids of the
    matching todos, or a single NULL when there is none. *)
Definition left_join (c : categories.row) (ts : list (Z * todos.row))
  : list (option Z) :=
  match List.filter
          (fun t => bool_decide (todos.category t.2 = Some (categories.name c))) ts with
  | [] => [None]
  | matched => (fun t => Some t.1) <$> matched
  end.

(** [COUNT(t.id)]: the rows of the group whose [t.id] is not NULL. *)
Definition COUNT (group : list (option Z)) : Z :=
  Z.of_nat (List.length (List.filter (fun v => bool_decide (is_Some v)) group)).

Module todoQueries.

Definition getAll (db : Database) : list Todo.t :=
  to_Todo <$> select_todos (fun _ => true) db.

Definition getByCategory (category : string) (db : Database) : list Todo.t :=
  to_Todo <$>
    select_todos (fun r => bool_decide (todos.category r.2 = Some category)) db.

(** The statement throws when LIKE refuses the pattern on a row. *)
Definition search (query : string) : M (list Todo.t) :=
  fun db =>
    match where_rows
            (fun r => Sqlite.like ("%" ++ query ++ "%") (todos.title r.2))
            (map_to_list (db_todos db)) with
    | Some rows => (db, Returns (to_Todo <$> merge_sort order_by rows))
    | None => (db, Throws SqliteError)
    end.

(** [row.completed] on the result of [.get]: a [TypeError] when the row
    is [undefined]. *)
Definition read_back (id : Z) : M Todo.t :=
  row <- read (select_by_id id) ;;
  match row with
  | Some r => ret (to_Todo r)
  | None => throw TypeError
  end.

Definition create (now : Z) (todo : NewTodo) : M Todo.t :=
  lastInsertRowid <-
    (fun db =>
       let rowid := Z.max (db_todos_seq db) (max_rowid (db_todos db)) + 1 in
       let row :=
         {| todos.title := n_title todo;
            todos.completed := if n_completed todo then 1 else 0;
            todos.category := n_category todo;
            todos.priority := n_priority todo;
            todos.created_at := now;
            todos.updated_at := now |} in
       ({| db_todos := <[rowid := row]> (db_todos db);
           db_todos_seq := rowid;
           db_categories := db_categories db |}, Returns rowid)) ;;
  read_back lastInsertRowid.

Definition update (now : Z) (id : Z) (updates : Updates) : M Todo.t :=
  (if no_keys updates then throw SqliteError else ret tt) ;;;
  write (fun db =>
           {| db_todos := alter (set_fields updates now) id (db_todos db);
              db_todos_seq := db_todos_seq db;
              db_categories := db_categories db |}) ;;;
  read_back id.

Definition getCategories (db : Database) : list Category.t :=
  merge_sort order_by_name
    ((fun c =>
        {| Category.id := categories.id c;
           Category.name := categories.name c;
           Category.color := categories.color c;
           Category.count := COUNT (left_join c (map_to_list (db_todos db))) |})
       <$> db_categories db).

(** Returns the [changes] of the run result. *)
Definition delete (id : Z) : M Z :=
  fun db =>
    ({| db_todos := base.delete id (db_todos db);
        db_todos_seq := db_todos_seq db;
        db_categories := db_categories db |},
     Returns (match db_todos db !! id with Some _ => 1 | None => 0 end)).

End todoQueries.

(** ** The server actions *)

(** [type ActionState]; every field is optional. *)
Record ActionState : Type := mkActionState {
  success : option bool;
  message : option string;
  error : option string;
  data : option Todo.t
}.

Definition failure (msg : string) : ActionState :=
  {| success := Some false; message := None; error := Some msg; data := None |}.

(** Every action is one [try]/[catch]. In the two actions that read a
    title, [!title] decides before [title.trim()] is evaluated, so a
    [null] title is never trimmed: that is the first branch of the match. *)
Definition createTodoAction (now : Z) (prevState : ActionState)
    (formData : JS.FormData) : M ActionState :=
  (try_catch
     (let title := JS.get formData "title" in
      let category := JS.or (JS.get formData "category") "general" in
      let priority := JS.or (JS.get formData "priority") "medium" in
      match title with
      | None => ret (failure "Todo title is required")
      | Some title =>
          if JS.not (Some title) || (JS.length (JS.trim title) =? 0)%Z then
            ret (failure "Todo title is required")
          else if (JS.length (JS.trim title) >? 200)%Z then
            ret (failure "Todo title must be less than 200 characters")
          else
            newTodo <- todoQueries.create now
                         {| n_title := JS.trim title;
                            n_completed := false;
                            n_category := Some category;
                            n_priority := Some priority |} ;;
            ret {| success := Some true;
                   message := Some "Todo created successfully!";
                   error := None;
                   data := Some newTodo |}
      end)
     (fun _ => ret (failure "Failed to create todo. Please try again."))).

Definition toggleTodoAction (now : Z) (id : Z) : M ActionState :=
  (try_catch
     (todos <- read todoQueries.getAll ;;
      match List.find (fun t => (Todo.id t =? id)%Z) todos with
      | None => ret (failure "Todo not found")
      | Some todo =>
          updatedTodo <- todoQueries.update now id
                           {| u_title := None;
                              u_completed := Some (negb (Todo.completed todo));
                              u_category := None;
                              u_priority := None |} ;;
          ret {| success := Some true;
                 message :=
                   Some ("Todo "
                         ++ (if Todo.completed updatedTodo
                             then "completed" else "reopened")
                         ++ "!");
                 error := None;
                 data := Some updatedTodo |}
      end)
     (fun _ => ret (failure "Failed to update todo. Please try again."))).

Definition deleteTodoAction (id : Z) : M ActionState :=
  (try_catch
     (todoQueries.delete id ;;;
      ret {| success := Some true;
             message := Some "Todo deleted successfully!";
             error := None;
             data := None |})
     (fun _ => ret (failure "Failed to delete todo. Please try again."))).

Definition updateTodoAction (now : Z) (id : Z) (prevState : ActionState)
    (formData : JS.FormData) : M ActionState :=
  (try_catch
     (let title := JS.get formData "title" in
      let category := JS.get formData "category" in
      let priority := JS.get formData "priority" in
      match title with
      | None => ret (failure "Todo title is required")
      | Some title =>
          if JS.not (Some title) || (JS.length (JS.trim title) =? 0)%Z then
            ret (failure "Todo title is required")
          else if (JS.length (JS.trim title) >? 200)%Z then
            ret (failure "Todo title must be less than 200 characters")
          else
            updatedTodo <- todoQueries.update now id
                             {| u_title := Some (JS.trim title);
                                u_completed := None;
                                u_category := Some category;
                                u_priority := Some priority |} ;;
            ret {| success := Some true;
                   message := Some "Todo updated successfully!";
                   error := None;
                   data := Some updatedTodo |}
      end)
     (fun _ => ret (failure "Failed to update todo. Please try again."))).

(** The read actions return the list, or [[]] from their [catch]. *)
Definition searchTodosAction (query : string) : M (list Todo.t) :=
  try_catch
    (if JS.not (Some query) || (JS.length (JS.trim query) =? 0)%Z then
       read todoQueries.getAll
     else
       todoQueries.search (JS.trim query))
    (fun _ => ret []).

Definition getTodosByCategoryAction (category : string) : M (list Todo.t) :=
  try_catch
    (if String.eqb category "all" then read todoQueries.getAll
     else read (todoQueries.getByCategory category))
    (fun _ => ret []).

Definition getAllTodosAction : M (list Todo.t) :=
  try_catch (read todoQueries.getAll) (fun _ => ret []).

Definition getAllCategoriesAction : M (list Category.t) :=
  try_catch (read todoQueries.getCategories) (fun _ => ret []).

(** ** The optimistic reducer of [TodoItem] *)

Module TodoItem.

(** [Partial<Todo>] *)
Record PartialTodo : Type := mkPartialTodo {
  p_id : option Z;
  p_title : option string;
  p_completed : option bool;
  p_category : option sqltext;
  p_priority : option sqltext;
  p_createdAt : option Z;
  p_updatedAt : option Z
}.

Inductive action_type : Type := toggle | update | delete.

Record action : Type := mkAction {
  type : action_type;
  action_data : option PartialTodo
}.

(** [{ ...currentTodo, ...data }]; spreading [undefined] adds nothing. *)
Definition spread (currentTodo : Todo.t) (data : option PartialTodo) : Todo.t :=
  match data with
  | None => currentTodo
  | Some d =>
      {| Todo.id := default (Todo.id currentTodo) (p_id d);
         Todo.title := default (Todo.title currentTodo) (p_title d);
         Todo.completed := default (Todo.completed currentTodo) (p_completed d);
         Todo.category := default (Todo.category currentTodo) (p_category d);
         Todo.priority := default (Todo.priority currentTodo) (p_priority d);
         Todo.createdAt := default (Todo.createdAt currentTodo) (p_createdAt d);
         Todo.updatedAt := default (Todo.updatedAt currentTodo) (p_updatedAt d) |}
  end.

(** The second argument of [useOptimistic]. *)
Definition reducer (currentTodo : Todo.t) (a : action) : Todo.t :=
  match type a with
  | toggle =>
      {| Todo.id := Todo.id currentTodo;
         Todo.title := Todo.title currentTodo;
         Todo.completed := negb (Todo.completed currentTodo);
         Todo.category := Todo.category currentTodo;
         Todo.priority := Todo.priority currentTodo;
         Todo.createdAt := Todo.createdAt currentTodo;
         Todo.updatedAt := Todo.updatedAt currentTodo |}
  | update => spread currentTodo (action_data a)
  | delete => currentTodo
  end.

End TodoItem.

(** ** Inputs used in the examples *)

(** ['c'.repeat(n)] *)
Fixpoint repeat_char (c : ascii) (n : nat) : string :=
  match n with
  | O => EmptyString
  | S n' => String c (repeat_char c n')
  end.

(** A title is blank when every code unit of it is white space. *)
Fixpoint blank (s : string) : bool :=
  match s with
  | EmptyString => true
  | String c s' => JS.isWhiteSpace c && blank s'
  end.

Definition no_state : ActionState :=
  {| success := None; message := None; error := None; data := None |}.

(** Two tasks created at times 50 and 60. *)
Definition milk_and_tea : Database :=
  (createTodoAction 60 no_state [("title", "Tea")]
     (createTodoAction 50 no_state
        [("title", "Buy milk"); ("category", "shopping"); ("priority", "low")]
        getDatabase).1).1.

(** The same two tasks after the newer one, "Tea", was toggled at time 70. *)
Definition tea_done : Database := (toggleTodoAction 70 2 milk_and_tea).1.

(** Two tasks created within the same second. *)
Definition same_second : Database :=
  (createTodoAction 50 no_state [("title", "Tea")]
     (createTodoAction 50 no_state [("title", "Buy milk")] getDatabase).1).1.

(** ** Substrings *)

(** [text] starts with [query], code units compared by [same]. *)
Fixpoint starts_with (same : ascii -> ascii -> bool) (query text : string) : bool :=
  match query, text with
  | EmptyString, _ => true
  | String _ _, EmptyString => false
  | String a query', String b text' => same a b && starts_with same query' text'
  end.

(** [query] occurs in [text] as a contiguous run of code units. *)
Fixpoint occurs_in (same : ascii -> ascii -> bool) (query text : string) : bool :=
  starts_with same query text
  || match text with
     | EmptyString => false
     | String _ text' => occurs_in same query text'
     end.

(** [text.includes(query)]: the exact, case-preserving substring test. *)
Definition includes (query text : string) : bool := occurs_in Ascii.eqb query text.

(** The substring test up to ASCII letter case. *)
Definition same_nocase (a b : ascii) : bool := Ascii.eqb (Sqlite.fold a) (Sqlite.fold b).
Definition includes_nocase (query text : string) : bool :=
  occurs_in same_nocase query text.

(** No code unit of the query is a LIKE wildcard. *)
Fixpoint no_wildcard (query : string) : bool :=
  match query with
  | EmptyString => true
  | String c query' =>
      negb (Sqlite.is_percent c) && negb (Sqlite.is_underscore c) && no_wildcard query'
  end.

(** ** Positions in a result list *)

(** [a] stands at an earlier position of [l] than [b]. *)
Definition precedes {A} (l : list A) (a b : A) : Prop :=
  exists i j : nat, (i < j)%nat /\ l !! i = Some a /\ l !! j = Some b.

(** The number of tasks [getAll] returns whose category is exactly [name]. *)
Definition tasks_in_category (name : string) (db : Database) : Z :=
  Z.of_nat
    (List.length
       (List.filter (fun t => bool_decide (Todo.category t = Some name))
          (todoQueries.getAll db))).

(** ** The states of the database *)

(** The databases the three writing queries lead to from a new file. *)
Inductive reachable : Database -> Prop :=
| reachable_new : reachable getDatabase
| reachable_create now todo db :
    reachable db -> reachable (todoQueries.create now todo db).1
| reachable_update now id updates db :
    reachable db -> reachable (todoQueries.update now id updates db).1
| reachable_delete id db :
    reachable db -> reachable (todoQueries.delete id db).1.

(** Every stored [completed] is the 0 or 1 a boolean was bound as. *)
Definition booleans_stored (db : Database) : Prop :=
  forall id r, db_todos db !! id = Some r ->
               todos.completed r = 0 \/ todos.completed r = 1.

(** ** The page component [Home] *)

Module Home.

(** The five [useState] cells of the component. *)
Record State : Type := mk {
  todos : list Todo.t;
  categories : list Category.t;
  filteredTodos : list Todo.t;
  selectedCategory : string;
  isLoading : bool
}.

(** [{ ...cat, count: cat.count + delta }] *)
Definition with_count (delta : Z) (cat : Category.t) : Category.t :=
  {| Category.id := Category.id cat;
     Category.name := Category.name cat;
     Category.color := Category.color cat;
     Category.count := Category.count cat + delta |}.

(** [cat.name === category], the category being a string or [null]. *)
Definition names (cat : Category.t) (category : sqltext) : bool :=
  bool_decide (Some (Category.name cat) = category).

(** The effect that runs once on mount, after its delay. *)
Definition loadData (s : State) : M State :=
  try_catch
    (allTodos <- getAllTodosAction ;;
     allCategories <- getAllCategoriesAction ;;
     ret {| todos := allTodos;
            categories := allCategories;
            filteredTodos := allTodos;
            selectedCategory := selectedCategory s;
            isLoading := false |})
    (fun _ =>
       ret {| todos := todos s;
              categories := categories s;
              filteredTodos := filteredTodos s;
              selectedCategory := selectedCategory s;
              isLoading := false |}).

Definition handleTodoAdded (newTodo : Todo.t) (s : State) : State :=
  {| todos := newTodo :: todos s;
     categories :=
       (fun cat => if names cat (Todo.category newTodo) then with_count 1 cat else cat)
         <$> categories s;
     filteredTodos := newTodo :: filteredTodos s;
     selectedCategory := selectedCategory s;
     isLoading := isLoading s |}.

(** [prev.map(todo => todo.id === updatedTodo.id ? updatedTodo : todo)] *)
Definition replace_todo (updatedTodo : Todo.t) (prev : list Todo.t) : list Todo.t :=
  (fun todo => if (Todo.id todo =? Todo.id updatedTodo)%Z then updatedTodo else todo)
    <$> prev.

Definition handleTodoUpdated (updatedTodo : Todo.t) (s : State) : State :=
  let originalTodo :=
    List.find (fun t => (Todo.id t =? Todo.id updatedTodo)%Z) (todos s) in
  {| todos := replace_todo updatedTodo (todos s);
     categories :=
       match originalTodo with
       | Some originalTodo =>
           if negb (bool_decide (Todo.category originalTodo = Todo.category updatedTodo))
           then
             (fun cat =>
                if names cat (Todo.category originalTodo) then with_count (-1) cat
                else if names cat (Todo.category updatedTodo) then with_count 1 cat
                else cat) <$> categories s
           else categories s
       | None => categories s
       end;
     filteredTodos := replace_todo updatedTodo (filteredTodos s);
     selectedCategory := selectedCategory s;
     isLoading := isLoading s |}.

Definition handleTodoDeleted (id : Z) (s : State) : State :=
  let todoToDelete := List.find (fun t => (Todo.id t =? id)%Z) (todos s) in
  {| todos := List.filter (fun todo => negb (Todo.id todo =? id)%Z) (todos s);
     categories :=
       match todoToDelete with
       | Some todoToDelete =>
           (fun cat =>
              if names cat (Todo.category todoToDelete) then with_count (-1) cat
              else cat) <$> categories s
       | None => categories s
       end;
     filteredTodos :=
       List.filter (fun todo => negb (Todo.id todo =? id)%Z) (filteredTodos s);
     selectedCategory := selectedCategory s;
     isLoading := isLoading s |}.

Definition handleResultsChange (results : list Todo.t) (s : State) : State :=
  {| todos := todos s;
     categories := categories s;
     filteredTodos := results;
     selectedCategory := selectedCategory s;
     isLoading := isLoading s |}.

End Home.

(** ** The component [SearchAndFilter] *)

Module SearchAndFilter.

(** The body of the effect: the list handed to [onResultsChange] for a
    deferred query and a selected category. *)
Definition results (deferredSearchQuery selectedCategory : string) : M (list Todo.t) :=
  try_catch
    (if negb (JS.not (Some (JS.trim deferredSearchQuery))) then
       searchTodosAction deferredSearchQuery
     else
       getTodosByCategoryAction selectedCategory)
    (fun _ => ret []).

(** The number on the "All" button:
    [categories.reduce((sum, cat) => sum + cat.count, 0)]. *)
Definition all_count (categories : list Category.t) : Z :=
  fold_left (fun sum cat => sum + Category.count cat) categories 0.

End SearchAndFilter.

(** ** Further states and measures used in the properties *)

(** The databases the four writing actions lead to from a new file. *)
Inductive served : Database -> Prop :=
| served_new : served getDatabase
| served_create now prevState formData db :
    served db -> served (createTodoAction now prevState formData db).1
| served_toggle now id db :
    served db -> served (toggleTodoAction now id db).1
| served_update now id prevState formData db :
    served db -> served (updateTodoAction now id prevState formData db).1
| served_delete id db :
    served db -> served (deleteTodoAction id db).1.

(** [reachable_by t db]: [db] is reached from a new file by queries whose
    clock readings never decrease, the last of them being at most [t]. *)
Inductive reachable_by : Z -> Database -> Prop :=
| by_new t : reachable_by t getDatabase
| by_create t now todo db :
    reachable_by t db -> t <= now ->
    reachable_by now (todoQueries.create now todo db).1
| by_update t now id updates db :
    reachable_by t db -> t <= now ->
    reachable_by now (todoQueries.update now id updates db).1
| by_delete t id db :
    reachable_by t db -> reachable_by t (todoQueries.delete id db).1.

(** The rows of a table whose category is exactly [name]. *)
Definition rows_in_category (name : string) (m : gmap Z todos.row) : Z :=
  Z.of_nat
    (List.length
       (List.filter (fun t => bool_decide (todos.category t.2 = Some name))
          (map_to_list m))).

(** 1 when the category is exactly [name], else 0. *)
Definition indicator (category : sqltext) (name : string) : Z :=
  if bool_decide (category = Some name) then 1 else 0.

(** The state of [Home] agrees with the database: it lists the stored
    tasks, and its categories are those the database reports. *)
Definition synced (db : Database) (s : Home.State) : Prop :=
  (forall t, In t (Home.todos s) <-> In t (todoQueries.getAll db))
  /\ Home.categories s = todoQueries.getCategories db.

(** A title as the actions store it: trimmed, not empty, at most 200
    code units. *)
Definition stored_title (title : string) : Prop :=
  JS.trim title = title /\ 1 <= JS.length title <= 200.

(** Two strings equal up to ASCII letter case. *)
Fixpoint same_nocase_string (a b : string) : bool :=
  match a, b with
  | EmptyString, EmptyString => true
  | String x a', String y b' => same_nocase x y && same_nocase_string a' b'
  | _, _ => false
  end.

(** Every code unit of the string is a percent sign. *)
Fixpoint all_percent (s : string) : bool :=
  match s with
  | EmptyString => true
  | String c s' => Sqlite.is_percent c && all_percent s'
  end.

(** The task's category is one of the four seeded names. *)
Definition in_seeded_category (t : Todo.t) : bool :=
  bool_decide (Todo.category t = Some "general")
  || bool_decide (Todo.category t = Some "personal")
  || bool_decide (Todo.category t = Some "shopping")
  || bool_decide (Todo.category t = Some "work").

(** A string is empty or begins with a code unit that is not white space. *)
Definition starts_clean (s : string) : Prop :=
  match s with
  | EmptyString => True
  | String c _ => JS.isWhiteSpace c = false
  end.

(** The four seeded categories in the order of their names, with the
    counts [count] gives. *)
Definition seeded_with (count : string -> Z) : list Category.t :=
  [ Category.mk 1 "general" (Some "#6366f1") (count "general");
    Category.mk 3 "personal" (Some "#059669") (count "personal");
    Category.mk 4 "shopping" (Some "#d97706") (count "shopping");
    Category.mk 2 "work" (Some "#dc2626") (count "work") ].

(** The result an action returns for a task it wrote. *)
Definition succeeded (msg : string) (t : Todo.t) : ActionState :=
  {| success := Some true; message := Some msg; error := None; data := Some t |}.

(** The task "Buy milk" as first created, the database that holds only
    it, and the state of [Home] loaded from a database. *)
Definition milk : Todo.t :=
  {| Todo.id := 1; Todo.title := "Buy milk"; Todo.completed := false;
     Todo.category := Some "shopping"; Todo.priority := Some "low";
     Todo.createdAt := 50; Todo.updatedAt := 50 |}.

Definition milk_only : Database :=
  (createTodoAction 50 no_state
     [("title", "Buy milk"); ("category", "shopping"); ("priority", "low")]
     getDatabase).1.

Definition home_of (db : Database) : Home.State :=
  {| Home.todos := todoQueries.getAll db;
     Home.categories := todoQueries.getCategories db;
     Home.filteredTodos := todoQueries.getAll db;
     Home.selectedCategory := "all";
     Home.isLoading := false |}.

(** The condition of [search] on a row, when LIKE accepts the pattern. *)
Definition title_matches (query : string) (r : Z * todos.row) : bool :=
  Sqlite.matches ("%" ++ query ++ "%") (todos.title r.2).

(** No code unit of the string is NUL. *)
Fixpoint no_nul (s : string) : bool :=
  match s with
  | EmptyString => true
  | String c s' => negb (Sqlite.is_nul c) && no_nul s'
  end.

(** * Properties *)

(** ** Strings *)

Lemma trimStart_blank s : blank s = true -> JS.trimStart s = "".
Proof.
  induction s as [|c s IH]; simpl; [reflexivity|].
  intros [Hc Hs]%andb_prop. rewrite Hc. auto.
Qed.

Lemma trim_blank s : blank s = true -> JS.trim s = "".
Proof. intros H. unfold JS.trim. now rewrite trimStart_blank. Qed.

Lemma trimEnd_empty_blank s : JS.trimEnd s = "" -> blank s = true.
Proof.
  induction s as [|c s IH]; simpl; [reflexivity|].
  destruct (JS.trimEnd s); [|discriminate].
  destruct (JS.isWhiteSpace c); [auto|discriminate].
Qed.

(** The blank strings are those that trim to the empty string. *)
Lemma blank_iff_trim_empty s : blank s = true <-> JS.trim s = "".
Proof.
  split; [apply trim_blank|].
  unfold JS.trim. induction s as [|c s IH]; simpl; [reflexivity|].
  destruct (JS.isWhiteSpace c) eqn:Hc; [auto|].
  intros H%trimEnd_empty_blank. simpl in H. now rewrite Hc in H.
Qed.

Lemma not_title_length title :
  JS.not (Some title) = true -> JS.length (JS.trim title) = 0.
Proof. destruct title; [reflexivity|discriminate]. Qed.

(** The two tests every title passes before it reaches the database. *)
Lemma title_accepted title :
  1 <= JS.length (JS.trim title) <= 200 ->
  JS.not (Some title) || (JS.length (JS.trim title) =? 0)%Z = false
  /\ (JS.length (JS.trim title) >? 200)%Z = false.
Proof.
  intros Hlen. split.
  - apply orb_false_intro.
    + destruct (JS.not (Some title)) eqn:E; [|reflexivity].
      apply not_title_length in E. lia.
    + apply Z.eqb_neq. lia.
  - destruct (Z.gtb_spec (JS.length (JS.trim title)) 200); [lia|reflexivity].
Qed.

(** ** Rows, lookups and the sort *)

Ltac run := unfold bind, ret, throw, try_catch, read, write; simpl.

#[global] Instance order_by_total : Total order_by.
Proof. intros [i a] [j b]. unfold order_by. cbn [fst snd]. lia. Qed.

#[global] Instance order_by_trans : Transitive order_by.
Proof. intros [i a] [j b] [k c]. unfold order_by. cbn [fst snd]. lia. Qed.

Lemma in_select_todos condition db r :
  In r (select_todos condition db)
  <-> db_todos db !! r.1 = Some r.2 /\ condition r = true.
Proof.
  unfold select_todos. rewrite <- list_elem_of_In.
  rewrite merge_sort_Permutation, list_elem_of_In, filter_In.
  rewrite <- list_elem_of_In. destruct r as [k v]; simpl.
  now rewrite elem_of_map_to_list.
Qed.

Lemma in_getAll db t :
  In t (todoQueries.getAll db)
  <-> exists r, db_todos db !! Todo.id t = Some r /\ t = to_Todo (Todo.id t, r).
Proof.
  unfold todoQueries.getAll. rewrite <- list_elem_of_In, list_elem_of_fmap.
  split.
  - intros [[k v] [-> [H _]%list_elem_of_In%in_select_todos]]. simpl in *. eauto.
  - intros [r [H Ht]]. exists (Todo.id t, r). split; [assumption|].
    apply list_elem_of_In, in_select_todos. auto.
Qed.

(** [todos.find(t => t.id === id)] on the result of [getAll] is the row
    of that id. *)
Lemma find_getAll id db :
  List.find (fun t => (Todo.id t =? id)%Z) (todoQueries.getAll db)
  = to_Todo <$> select_by_id id db.
Proof.
  unfold select_by_id.
  destruct (List.find _ _) as [t|] eqn:Hfind.
  - apply find_some in Hfind as [[r [Hr Ht]]%in_getAll Hid].
    apply Z.eqb_eq in Hid. subst id. rewrite Hr. simpl. now rewrite <- Ht.
  - destruct (db_todos db !! id) as [r|] eqn:Hr; [|reflexivity].
    exfalso. pose proof (find_none _ _ Hfind (to_Todo (id, r))) as H.
    simpl in H. rewrite Z.eqb_refl in H.
    assert (false = true); [|discriminate]. symmetry. apply H.
    apply in_getAll. simpl. eauto.
Qed.

Lemma max_rowid_ge (m : gmap Z todos.row) k r :
  m !! k = Some r -> k <= max_rowid m.
Proof.
  intros H. unfold max_rowid.
  assert (Hin : k ∈ (map_to_list m).*1).
  { apply list_elem_of_fmap. exists (k, r). split; [reflexivity|].
    now apply elem_of_map_to_list. }
  clear H. induction Hin as [x l|x y l _ IH]; cbn [foldr]; lia.
Qed.

(** The rowid AUTOINCREMENT picks is not in the table. *)
Lemma fresh_rowid (m : gmap Z todos.row) seq :
  m !! (Z.max seq (max_rowid m) + 1) = None.
Proof.
  destruct (m !! _) as [r|] eqn:H; [|reflexivity].
  apply max_rowid_ge in H. lia.
Qed.

Lemma Database_eta db :
  {| db_todos := db_todos db; db_todos_seq := db_todos_seq db;
     db_categories := db_categories db |} = db.
Proof. now destruct db. Qed.

(** ** [todoQueries.update] *)

(** On an id that is not in the table the UPDATE changes no row and the
    read-back dereferences [undefined]. *)
Lemma update_missing now id u db :
  db_todos db !! id = None -> no_keys u = false ->
  todoQueries.update now id u db = (db, Throws TypeError).
Proof.
  intros Hid Hu. unfold todoQueries.update, todoQueries.read_back, select_by_id.
  run. rewrite Hu. simpl.
  rewrite lookup_alter_eq, Hid. simpl.
  rewrite alter_id' by assumption.
  now rewrite Database_eta.
Qed.

Lemma update_existing now id u db r :
  db_todos db !! id = Some r -> no_keys u = false ->
  todoQueries.update now id u db
  = ({| db_todos := <[id := set_fields u now r]> (db_todos db);
        db_todos_seq := db_todos_seq db;
        db_categories := db_categories db |},
     Returns (to_Todo (id, set_fields u now r))).
Proof.
  intros Hid Hu. unfold todoQueries.update, todoQueries.read_back, select_by_id.
  run. rewrite Hu. simpl.
  rewrite lookup_alter_eq, Hid. simpl.
  do 2 f_equal. apply map_eq. intros j.
  rewrite lookup_alter, lookup_insert.
  destruct (decide (id = j)) as [->|]; [now rewrite Hid|reflexivity].
Qed.

Lemma updateTodoAction_missing now id prevState formData db title :
  db_todos db !! id = None ->
  JS.get formData "title" = Some title ->
  1 <= JS.length (JS.trim title) <= 200 ->
  updateTodoAction now id prevState formData db
  = (db, Returns (failure "Failed to update todo. Please try again.")).
Proof.
  intros Hid Ht Hlen. unfold updateTodoAction. rewrite Ht.
  destruct (title_accepted title Hlen) as [-> ->].
  unfold try_catch, bind. rewrite update_missing by (assumption || reflexivity).
  reflexivity.
Qed.

Lemma toggleTodoAction_missing now id db :
  db_todos db !! id = None ->
  toggleTodoAction now id db = (db, Returns (failure "Todo not found")).
Proof.
  intros Hid. unfold toggleTodoAction. run.
  rewrite find_getAll. unfold select_by_id. now rewrite Hid.
Qed.

(** C1 (evaluation of the code). On an id that is not in the table,
    [todoQueries.update] returns no task: it throws the [TypeError] of the
    read-back, and [updateTodoAction] turns that into its generic failure
    message. Neither names the missing id, whereas [toggleTodoAction]
    answers the same id with 'Todo not found'. *)
Theorem C1_update_of_missing_id now id u prevState formData title db :
  db_todos db !! id = None ->
  no_keys u = false ->
  JS.get formData "title" = Some title ->
  1 <= JS.length (JS.trim title) <= 200 ->
  todoQueries.update now id u db = (db, Throws TypeError)
  /\ updateTodoAction now id prevState formData db
     = (db, Returns (failure "Failed to update todo. Please try again."))
  /\ toggleTodoAction now id db = (db, Returns (failure "Todo not found")).
Proof.
  intros Hid Hu Ht Hlen. split; [|split].
  - now apply update_missing.
  - now apply updateTodoAction_missing with title.
  - now apply toggleTodoAction_missing.
Qed.

Lemma C1_update_of_missing_id_witness :
  todoQueries.update 50 7
    {| u_title := Some "Buy milk"; u_completed := None;
       u_category := None; u_priority := None |} getDatabase
  = (getDatabase, Throws TypeError)
  /\ updateTodoAction 50 7 no_state
       [("title", "Buy milk"); ("category", "work"); ("priority", "low")] getDatabase
     = (getDatabase, Returns (failure "Failed to update todo. Please try again."))
  /\ toggleTodoAction 50 7 getDatabase
     = (getDatabase, Returns (failure "Todo not found")).
Proof.
  apply (C1_update_of_missing_id 50 7 _ no_state _ "Buy milk" getDatabase).
  - reflexivity.
  - reflexivity.
  - reflexivity.
  - vm_compute. split; discriminate.
Defined.

(** ** [todoQueries.create] *)

Lemma create_returns now todo db :
  let rowid := Z.max (db_todos_seq db) (max_rowid (db_todos db)) + 1 in
  let row :=
    {| todos.title := n_title todo;
       todos.completed := if n_completed todo then 1 else 0;
       todos.category := n_category todo;
       todos.priority := n_priority todo;
       todos.created_at := now;
       todos.updated_at := now |} in
  todoQueries.create now todo db
  = ({| db_todos := <[rowid := row]> (db_todos db);
        db_todos_seq := rowid;
        db_categories := db_categories db |},
     Returns (to_Todo (rowid, row))).
Proof.
  intros rowid row. unfold todoQueries.create, todoQueries.read_back, select_by_id.
  run. fold rowid. fold row. now rewrite lookup_insert_eq.
Qed.

(** C4. A title whose trimmed length is between 1 and 200 is created: the
    action succeeds, the task it returns is the stored row, with
    [completed = false] and with category "general" and priority "medium"
    where the form omits them. A title whose trimmed length exceeds 200 is
    refused with the validation message and nothing is stored. *)
Theorem C4_create_title_length now prevState formData title db :
  JS.get formData "title" = Some title ->
  (1 <= JS.length (JS.trim title) <= 200 ->
   exists newTodo db',
     createTodoAction now prevState formData db
     = (db', Returns {| success := Some true;
                        message := Some "Todo created successfully!";
                        error := None;
                        data := Some newTodo |})
     /\ Some newTodo = to_Todo <$> select_by_id (Todo.id newTodo) db'
     /\ db_todos db !! Todo.id newTodo = None
     /\ Todo.title newTodo = JS.trim title
     /\ Todo.completed newTodo = false
     /\ (JS.get formData "category" = None -> Todo.category newTodo = Some "general")
     /\ (JS.get formData "priority" = None -> Todo.priority newTodo = Some "medium"))
  /\ (200 < JS.length (JS.trim title) ->
      createTodoAction now prevState formData db
      = (db, Returns (failure "Todo title must be less than 200 characters"))).
Proof.
  intros Ht. split; intros Hlen; unfold createTodoAction; rewrite Ht.
  - destruct (title_accepted title Hlen) as [-> ->].
    unfold try_catch, bind. rewrite create_returns. unfold ret.
    eexists _, _. split; [reflexivity|].
    unfold select_by_id. simpl. rewrite lookup_insert_eq. simpl.
    repeat split.
    + apply fresh_rowid.
    + now intros ->.
    + now intros ->.
  - assert (Hne : JS.not (Some title) = false).
    { destruct (JS.not (Some title)) eqn:E; [|reflexivity].
      apply not_title_length in E. lia. }
    rewrite Hne. simpl orb.
    destruct (Z.eqb_spec (JS.length (JS.trim title)) 0) as [E|_]; [lia|].
    destruct (Z.gtb_spec (JS.length (JS.trim title)) 200) as [_|E]; [|lia].
    reflexivity.
Qed.

Lemma C4_create_title_length_witness :
  (exists newTodo db',
     createTodoAction 50 no_state [("title", repeat_char "a" 200)] getDatabase
     = (db', Returns {| success := Some true;
                        message := Some "Todo created successfully!";
                        error := None;
                        data := Some newTodo |})
     /\ Todo.completed newTodo = false
     /\ Todo.category newTodo = Some "general"
     /\ Todo.priority newTodo = Some "medium")
  /\ createTodoAction 50 no_state [("title", repeat_char "a" 201)] getDatabase
     = (getDatabase, Returns (failure "Todo title must be less than 200 characters")).
Proof.
  split.
  - destruct (C4_create_title_length 50 no_state
                [("title", repeat_char "a" 200)] (repeat_char "a" 200) getDatabase
                eq_refl) as [Hok _].
    destruct Hok as (newTodo & db' & Hrun & _ & _ & _ & Hc & Hcat & Hprio).
    { vm_compute. split; discriminate. }
    exists newTodo, db'. repeat split; auto.
  - apply (C4_create_title_length 50 no_state
             [("title", repeat_char "a" 201)] (repeat_char "a" 201) getDatabase
             eq_refl).
    vm_compute. reflexivity.
Defined.

(** C5. A title that is empty or consists of white space only is refused
    with the validation message, and the database is the one the action
    started from: no row is stored. *)
Theorem C5_create_blank_title now prevState formData title db :
  JS.get formData "title" = Some title ->
  blank title = true ->
  createTodoAction now prevState formData db
  = (db, Returns (failure "Todo title is required")).
Proof.
  intros Ht Hb. unfold createTodoAction. rewrite Ht.
  rewrite (trim_blank _ Hb). change (JS.length "" =? 0)%Z with true.
  now rewrite orb_true_r.
Qed.

Lemma C5_create_blank_title_witness :
  createTodoAction 50 no_state [("title", "   "); ("category", "work")] getDatabase
  = (getDatabase, Returns (failure "Todo title is required"))
  /\ createTodoAction 50 no_state [("title", "")] getDatabase
     = (getDatabase, Returns (failure "Todo title is required")).
Proof.
  split.
  - apply (C5_create_blank_title 50 no_state _ "   " getDatabase); reflexivity.
  - apply (C5_create_blank_title 50 no_state _ "" getDatabase); reflexivity.
Defined.

(** C10. On an id that is not in the table [toggleTodoAction] answers
    [{success: false, error: 'Todo not found'}] and leaves the database as
    it was: it never reaches the UPDATE. [todoQueries.update] has no such
    test: on the same id it runs its statements and fails at the read-back
    with a [TypeError]. *)
Theorem C10_toggle_of_missing_id now id db :
  db_todos db !! id = None ->
  toggleTodoAction now id db = (db, Returns (failure "Todo not found"))
  /\ forall u, no_keys u = false ->
       todoQueries.update now id u db = (db, Throws TypeError).
Proof.
  intros Hid. split.
  - now apply toggleTodoAction_missing.
  - intros u Hu. now apply update_missing.
Qed.

Lemma C10_toggle_of_missing_id_witness :
  toggleTodoAction 50 7 getDatabase
  = (getDatabase, Returns (failure "Todo not found"))
  /\ forall u, no_keys u = false ->
       todoQueries.update 50 7 u getDatabase = (getDatabase, Throws TypeError).
Proof. apply (C10_toggle_of_missing_id 50 7 getDatabase). reflexivity. Defined.

(** ** The LIKE operator and the WHERE clause of [search] *)

Lemma utf8_bytes_app a b :
  Sqlite.utf8_bytes (a ++ b) = Sqlite.utf8_bytes a + Sqlite.utf8_bytes b.
Proof.
  induction a as [|c a IH]; [reflexivity|].
  change (String c a ++ b) with (String c (a ++ b)).
  cbn [Sqlite.utf8_bytes]. rewrite IH. lia.
Qed.

Lemma pattern_bytes query :
  Sqlite.utf8_bytes ("%" ++ query ++ "%") = Sqlite.utf8_bytes query + 2.
Proof.
  change ("%" ++ query ++ "%") with (String "%" (query ++ "%")).
  cbn [Sqlite.utf8_bytes]. rewrite utf8_bytes_app.
  change (Sqlite.utf8_bytes "%") with 1. change (Sqlite.utf8_bytes_of "%") with 1. lia.
Qed.

Lemma utf8_bytes_bounds s :
  JS.length s <= Sqlite.utf8_bytes s <= 2 * JS.length s.
Proof.
  unfold JS.length. induction s as [|c s IH]; [cbn; lia|].
  cbn [Sqlite.utf8_bytes String.length]. unfold Sqlite.utf8_bytes_of.
  destruct (_ <? _)%N; lia.
Qed.

Lemma like_accepts query text :
  Sqlite.utf8_bytes query <= 49998 ->
  Sqlite.like ("%" ++ query ++ "%") text
  = Some (Sqlite.matches ("%" ++ query ++ "%") text).
Proof.
  intros H. unfold Sqlite.like, Sqlite.SQLITE_MAX_LIKE_PATTERN_LENGTH.
  rewrite pattern_bytes. destruct (Z.ltb_spec 50000 (Sqlite.utf8_bytes query + 2));
    [lia|reflexivity].
Qed.

Lemma like_refuses query text :
  49998 < Sqlite.utf8_bytes query ->
  Sqlite.like ("%" ++ query ++ "%") text = None.
Proof.
  intros H. unfold Sqlite.like, Sqlite.SQLITE_MAX_LIKE_PATTERN_LENGTH.
  rewrite pattern_bytes. destruct (Z.ltb_spec 50000 (Sqlite.utf8_bytes query + 2));
    [reflexivity|lia].
Qed.

Lemma where_rows_some {A} (condition : A -> option bool) (f : A -> bool) rows :
  (forall r, condition r = Some (f r)) ->
  where_rows condition rows = Some (List.filter f rows).
Proof.
  intros H. induction rows as [|r rows IH]; [reflexivity|].
  cbn [where_rows List.filter]. rewrite H, IH. now destruct (f r).
Qed.

Lemma where_rows_none {A} (condition : A -> option bool) rows :
  (forall r, condition r = None) -> rows <> [] ->
  where_rows condition rows = None.
Proof. intros H. destruct rows as [|r rows]; [congruence|]. intros _. cbn. now rewrite H. Qed.

Lemma where_rows_ext {A} (c1 c2 : A -> option bool) rows :
  (forall r, c1 r = c2 r) -> where_rows c1 rows = where_rows c2 rows.
Proof.
  intros H. induction rows as [|r rows IH]; [reflexivity|].
  cbn [where_rows]. now rewrite H, IH.
Qed.

(** Within the limit [search] returns the rows that match. *)
Lemma search_within_limit query db :
  Sqlite.utf8_bytes query <= 49998 ->
  todoQueries.search query db
  = (db, Returns (to_Todo <$> select_todos (title_matches query) db)).
Proof.
  intros H. unfold todoQueries.search, select_todos.
  rewrite (where_rows_some _ (title_matches query)); [reflexivity|].
  intros r. now apply like_accepts.
Qed.

(** Beyond it the statement fails on the first row, if there is one. *)
Lemma search_over_limit query db :
  49998 < Sqlite.utf8_bytes query ->
  todoQueries.search query db
  = (db, if bool_decide (map_to_list (db_todos db) = [])
         then Returns [] else Throws SqliteError).
Proof.
  intros H. unfold todoQueries.search.
  destruct (bool_decide_reflect (map_to_list (db_todos db) = [])) as [E|E].
  - rewrite E. reflexivity.
  - rewrite where_rows_none; [reflexivity| |assumption].
    intros r. now apply like_refuses.
Qed.

Lemma search_returns_inv query db db' l :
  todoQueries.search query db = (db', Returns l) ->
  db' = db /\ l = to_Todo <$> select_todos (title_matches query) db.
Proof.
  destruct (Z.le_gt_cases (Sqlite.utf8_bytes query) 49998) as [H|H].
  - rewrite search_within_limit by assumption. intros [= <- <-]. auto.
  - rewrite search_over_limit by lia.
    destruct (bool_decide_reflect (map_to_list (db_todos db) = [])) as [E|E];
      [|discriminate].
    intros [= <- <-]. split; [reflexivity|].
    unfold select_todos. now rewrite E.
Qed.

Lemma no_nul_until_nul s : no_nul s = true -> Sqlite.until_nul s = s.
Proof.
  induction s as [|c s IH]; [reflexivity|]. cbn [no_nul Sqlite.until_nul].
  intros [Hc Hs]%andb_prop. apply negb_true_iff in Hc. rewrite Hc. now rewrite IH.
Qed.

Lemma no_nul_app a b : no_nul a = true -> no_nul b = true -> no_nul (a ++ b) = true.
Proof.
  induction a as [|c a IH]; intros Ha Hb; [exact Hb|].
  cbn [no_nul] in Ha. apply andb_prop in Ha as [Hc Ha].
  change (String c a ++ b) with (String c (a ++ b)).
  cbn [no_nul]. now rewrite Hc, IH.
Qed.

Lemma no_nul_pattern query :
  no_nul query = true -> Sqlite.until_nul ("%" ++ query ++ "%") = "%" ++ query ++ "%".
Proof.
  intros H. apply no_nul_until_nul.
  change ("%" ++ query ++ "%") with (String "%" (query ++ "%")).
  cbn [no_nul]. change (Sqlite.is_nul "%") with false. cbn [negb andb].
  now apply no_nul_app.
Qed.

(** ** Searching with an empty pattern *)

Lemma like_percent text : Sqlite.patternCompare "%" text = true.
Proof.
  induction text as [|c text IH]; [reflexivity|].
  change (Sqlite.patternCompare "%" (String c text))
    with (Sqlite.patternCompare "" (String c text) || Sqlite.patternCompare "%" text).
  now rewrite IH, orb_true_r.
Qed.

Lemma like_percent_percent text : Sqlite.patternCompare "%%" text = true.
Proof.
  destruct text as [|c text].
  - reflexivity.
  - change (Sqlite.patternCompare "%%" (String c text))
      with (Sqlite.patternCompare "%" (String c text) || Sqlite.patternCompare "%%" text).
    now rewrite like_percent.
Qed.

Lemma filter_all {A} (f : A -> bool) (l : list A) :
  (forall x, f x = true) -> List.filter f l = l.
Proof.
  intros Hf. induction l as [|x l IH]; simpl; [reflexivity|].
  now rewrite Hf, IH.
Qed.

(** C8. With an empty or blank query the search action returns the very
    list [getAll] returns, and so does [todoQueries.search] itself with
    the empty query, whose pattern is ['%%']. *)
Theorem C8_search_blank_is_getAll query db :
  blank query = true ->
  searchTodosAction query db = (db, Returns (todoQueries.getAll db))
  /\ todoQueries.search "" db = (db, Returns (todoQueries.getAll db)).
Proof.
  intros Hb. split.
  - unfold searchTodosAction. rewrite (trim_blank _ Hb).
    change (JS.length "" =? 0)%Z with true. now rewrite orb_true_r.
  - rewrite search_within_limit by (cbn; lia).
    unfold todoQueries.getAll, select_todos.
    rewrite !filter_all; [reflexivity|reflexivity|].
    intros r. apply like_percent_percent.
Qed.

Lemma C8_search_blank_is_getAll_witness :
  searchTodosAction "  " milk_and_tea
  = (milk_and_tea, Returns (todoQueries.getAll milk_and_tea))
  /\ todoQueries.search "" milk_and_tea
     = (milk_and_tea, Returns (todoQueries.getAll milk_and_tea)).
Proof. apply (C8_search_blank_is_getAll "  " milk_and_tea). reflexivity. Defined.

(** Called directly with a blank query that is not empty,
    [todoQueries.search] looks for the blanks; it is the action that
    trims. *)
Example search_two_spaces_direct :
  todoQueries.search "  " milk_and_tea = (milk_and_tea, Returns []).
Proof. vm_compute. reflexivity. Qed.

(** LIKE reads a title up to its first NUL: the task titled a-NUL-b is
    found by "a", not by "b". *)
Example search_reads_until_nul :
  let db := (createTodoAction 50 no_state
               [("title", String "a" (String "000" (String "b" EmptyString)))]
               getDatabase).1 in
  (exists t, todoQueries.search "a" db = (db, Returns [t]))
  /\ todoQueries.search "b" db = (db, Returns []).
Proof. split; [eexists|]; vm_compute; reflexivity. Qed.

(** Tasks created within the same second are listed by rowid. *)
Example getAll_same_second : Todo.id <$> todoQueries.getAll same_second = [1; 2].
Proof. vm_compute. reflexivity. Qed.

(** ** Updating and toggling a stored task *)

(** C9. On an id that is in the table and with at least one field given,
    [todoQueries.update] returns the row it leaves in the table. That row
    keeps its id and its creation time, carries the current time as its
    update time, keeps every field the call does not give and takes the
    given ones; every other row of the table is as before. *)
Theorem C9_update_frame now id u db r :
  db_todos db !! id = Some r ->
  no_keys u = false ->
  let before := to_Todo (id, r) in
  exists after db',
    todoQueries.update now id u db = (db', Returns after)
    /\ to_Todo <$> select_by_id id db' = Some after
    /\ Todo.id after = id
    /\ Todo.createdAt after = Todo.createdAt before
    /\ Todo.updatedAt after = now
    /\ Todo.title after = default (Todo.title before) (u_title u)
    /\ Todo.completed after = default (Todo.completed before) (u_completed u)
    /\ Todo.category after = default (Todo.category before) (u_category u)
    /\ Todo.priority after = default (Todo.priority before) (u_priority u)
    /\ (forall j, j <> id -> db_todos db' !! j = db_todos db !! j)
    /\ db_todos_seq db' = db_todos_seq db
    /\ db_categories db' = db_categories db.
Proof.
  intros Hid Hu before. eexists _, _.
  split; [exact (update_existing now id u db r Hid Hu)|].
  unfold select_by_id. simpl. rewrite lookup_insert_eq. simpl.
  repeat split.
  - destruct (u_completed u) as [[]|]; reflexivity.
  - intros j Hj. now rewrite lookup_insert_ne.
Qed.

Lemma C9_update_frame_witness :
  exists after db',
    todoQueries.update 70 1
      {| u_title := None; u_completed := None;
         u_category := Some (Some "work"); u_priority := None |} milk_and_tea
    = (db', Returns after)
    /\ after = {| Todo.id := 1; Todo.title := "Buy milk"; Todo.completed := false;
                  Todo.category := Some "work"; Todo.priority := Some "low";
                  Todo.createdAt := 50; Todo.updatedAt := 70 |}.
Proof.
  destruct (C9_update_frame 70 1
              {| u_title := None; u_completed := None;
                 u_category := Some (Some "work"); u_priority := None |}
              milk_and_tea
              (todos.mk "Buy milk" 0 (Some "shopping") (Some "low") 50 50)
              eq_refl eq_refl)
    as (after & db' & Hrun & _ & Hi & Hc & Hu & Ht & Hd & Hcat & Hp & _).
  exists after, db'. split; [exact Hrun|].
  destruct after; simpl in *; subst. reflexivity.
Defined.

Lemma toggleTodoAction_existing now id db r :
  db_todos db !! id = Some r ->
  let flipped :=
    set_fields {| u_title := None;
                  u_completed := Some (negb (JS.Boolean (todos.completed r)));
                  u_category := None;
                  u_priority := None |} now r in
  toggleTodoAction now id db
  = ({| db_todos := <[id := flipped]> (db_todos db);
        db_todos_seq := db_todos_seq db;
        db_categories := db_categories db |},
     Returns {| success := Some true;
                message :=
                  Some ("Todo "
                        ++ (if Todo.completed (to_Todo (id, flipped))
                            then "completed" else "reopened")
                        ++ "!");
                error := None;
                data := Some (to_Todo (id, flipped)) |}).
Proof.
  intros Hid flipped. unfold toggleTodoAction.
  unfold try_catch at 1. unfold bind at 1. unfold read at 1.
  rewrite find_getAll. unfold select_by_id. rewrite Hid. simpl.
  unfold bind. rewrite (update_existing _ _ _ _ r) by (assumption || reflexivity).
  reflexivity.
Qed.

(** C6. Two toggles of a stored task, one after the other, both succeed
    and the second returns, and leaves in the table, the completion value
    the task had before the first; only the update time differs from the
    original task. On the toggle action the optimistic reducer negates
    the completion flag and keeps every other field, and so is its own
    inverse. *)
Theorem C6_toggle_twice now1 now2 id db r :
  db_todos db !! id = Some r ->
  let original := to_Todo (id, r) in
  (exists a1 a2 t1 t2 db1 db2,
     toggleTodoAction now1 id db = (db1, Returns a1)
     /\ success a1 = Some true /\ data a1 = Some t1
     /\ Todo.completed t1 = negb (Todo.completed original)
     /\ toggleTodoAction now2 id db1 = (db2, Returns a2)
     /\ success a2 = Some true /\ data a2 = Some t2
     /\ Todo.completed t2 = Todo.completed original
     /\ to_Todo <$> select_by_id id db2 = Some t2
     /\ t2 = {| Todo.id := Todo.id original;
                Todo.title := Todo.title original;
                Todo.completed := Todo.completed original;
                Todo.category := Todo.category original;
                Todo.priority := Todo.priority original;
                Todo.createdAt := Todo.createdAt original;
                Todo.updatedAt := now2 |})
  /\ (forall currentTodo a,
        TodoItem.type a = TodoItem.toggle ->
        TodoItem.reducer (TodoItem.reducer currentTodo a) a = currentTodo)
  /\ (forall currentTodo a,
        TodoItem.type a = TodoItem.toggle ->
        TodoItem.reducer currentTodo a
        = {| Todo.id := Todo.id currentTodo;
             Todo.title := Todo.title currentTodo;
             Todo.completed := negb (Todo.completed currentTodo);
             Todo.category := Todo.category currentTodo;
             Todo.priority := Todo.priority currentTodo;
             Todo.createdAt := Todo.createdAt currentTodo;
             Todo.updatedAt := Todo.updatedAt currentTodo |}).
Proof.
  intros Hid original. split; [|split].
  - eexists _, _, _, _, _, _.
    split; [exact (toggleTodoAction_existing now1 id db r Hid)|].
    split; [reflexivity|]. split; [reflexivity|].
    split; [simpl; now destruct (JS.Boolean (todos.completed r))|].
    split.
    { apply toggleTodoAction_existing. simpl. apply lookup_insert_eq. }
    split; [reflexivity|]. split; [reflexivity|].
    assert (Hb : forall b : bool,
               JS.Boolean (if negb (JS.Boolean (if negb b then 1 else 0))
                           then 1 else 0) = b) by (now intros []).
    split; [simpl; apply Hb|].
    split.
    { unfold select_by_id. simpl. now rewrite lookup_insert_eq. }
    unfold to_Todo. simpl. now rewrite Hb.
  - intros [i t c cat p ca ua] a Ha. unfold TodoItem.reducer. rewrite Ha. simpl.
    now rewrite negb_involutive.
  - intros currentTodo a Ha. unfold TodoItem.reducer. now rewrite Ha.
Qed.

Lemma C6_toggle_twice_witness :
  (exists a1 a2 t1 t2 db1 db2,
     toggleTodoAction 70 1 milk_and_tea = (db1, Returns a1)
     /\ Todo.completed t1 = true
     /\ data a1 = Some t1
     /\ toggleTodoAction 80 1 db1 = (db2, Returns a2)
     /\ data a2 = Some t2
     /\ Todo.completed t2 = false)
  /\ TodoItem.reducer
       (TodoItem.reducer (to_Todo (1, todos.mk "Buy milk" 0 (Some "shopping") (Some "low") 50 50))
          (TodoItem.mkAction TodoItem.toggle None))
       (TodoItem.mkAction TodoItem.toggle None)
     = to_Todo (1, todos.mk "Buy milk" 0 (Some "shopping") (Some "low") 50 50)
  /\ TodoItem.reducer
       (to_Todo (1, todos.mk "Buy milk" 0 (Some "shopping") (Some "low") 50 50))
       (TodoItem.mkAction TodoItem.toggle None)
     = {| Todo.id := 1; Todo.title := "Buy milk"; Todo.completed := true;
          Todo.category := Some "shopping"; Todo.priority := Some "low";
          Todo.createdAt := 50; Todo.updatedAt := 50 |}.
Proof.
  destruct (C6_toggle_twice 70 80 1 milk_and_tea
              (todos.mk "Buy milk" 0 (Some "shopping") (Some "low") 50 50) eq_refl)
    as [(a1 & a2 & t1 & t2 & db1 & db2 & H1 & _ & Hd1 & Hc1 & H2 & _ & Hd2 & Hc2 & _)
        [Hinv Hflip]].
  split; [|split].
  - exists a1, a2, t1, t2, db1, db2. repeat split; assumption.
  - apply Hinv. reflexivity.
  - apply (Hflip (to_Todo (1, todos.mk "Buy milk" 0 (Some "shopping") (Some "low") 50 50))
             (TodoItem.mkAction TodoItem.toggle None)).
    reflexivity.
Defined.

(** ** The LIKE pattern of [search] *)

Lemma like_percent_cons pattern text :
  Sqlite.patternCompare (String "%" pattern) text
  = Sqlite.patternCompare pattern text
    || match text with
       | EmptyString => false
       | String _ text' => Sqlite.patternCompare (String "%" pattern) text'
       end.
Proof. destruct text; reflexivity. Qed.

Lemma like_prefix_nocase query text :
  no_wildcard query = true ->
  Sqlite.patternCompare (query ++ "%") text = starts_with same_nocase query text.
Proof.
  revert text. induction query as [|a query IH]; intros text Hq.
  - simpl. apply like_percent.
  - simpl in Hq. apply andb_prop in Hq as [[Hp Hu]%andb_prop Hq].
    apply negb_true_iff in Hp, Hu.
    simpl. rewrite Hp. destruct text as [|c text]; [reflexivity|].
    rewrite Hu. simpl. now rewrite IH.
Qed.

Lemma like_contains_nocase query text :
  no_wildcard query = true ->
  Sqlite.patternCompare ("%" ++ query ++ "%") text = includes_nocase query text.
Proof.
  intros Hq. unfold includes_nocase.
  induction text as [|c text IH].
  - change ("%" ++ query ++ "%") with (String "%" (query ++ "%")).
    rewrite like_percent_cons, like_prefix_nocase by assumption.
    simpl. now destruct query.
  - change ("%" ++ query ++ "%") with (String "%" (query ++ "%")) in *.
    rewrite like_percent_cons, like_prefix_nocase, IH by assumption.
    reflexivity.
Qed.

Lemma like_prefix_exact query text :
  starts_with Ascii.eqb query text = true ->
  Sqlite.patternCompare (query ++ "%") text = true.
Proof.
  revert text. induction query as [|a query IH]; intros text H.
  - apply like_percent.
  - destruct text as [|c text]; [discriminate|].
    simpl in H. apply andb_prop in H as [Hac H].
    apply Ascii.eqb_eq in Hac. subst c. apply IH in H.
    destruct (Sqlite.is_percent a) eqn:Hp.
    + apply Ascii.eqb_eq in Hp. subst a.
      change (String "%" query ++ "%") with (String "%" (query ++ "%")).
      rewrite like_percent_cons. apply orb_true_iff. right.
      rewrite like_percent_cons. now rewrite H.
    + simpl. rewrite Hp, H, Ascii.eqb_refl. now rewrite orb_true_r.
Qed.

Lemma like_contains_exact query text :
  includes query text = true ->
  Sqlite.patternCompare ("%" ++ query ++ "%") text = true.
Proof.
  unfold includes.
  change ("%" ++ query ++ "%") with (String "%" (query ++ "%")).
  induction text as [|c text IH]; intros H; rewrite like_percent_cons.
  - simpl in H. rewrite orb_false_r in H. now rewrite like_prefix_exact.
  - simpl in H. apply orb_true_iff in H as [H|H].
    + now rewrite like_prefix_exact.
    + rewrite (IH H). apply orb_true_r.
Qed.

Lemma in_search_rows query db t :
  In t (to_Todo <$> select_todos (title_matches query) db)
  <-> In t (todoQueries.getAll db)
      /\ Sqlite.matches ("%" ++ query ++ "%") (Todo.title t) = true.
Proof.
  rewrite in_getAll.
  rewrite <- list_elem_of_In, list_elem_of_fmap. split.
  - intros [[k v] [-> [H Hl]%list_elem_of_In%in_select_todos]]. simpl in *. eauto.
  - intros [[r [H Ht]] Hl]. exists (Todo.id t, r). split; [assumption|].
    apply list_elem_of_In, in_select_todos. rewrite Ht in Hl. auto.
Qed.

(** C2 (as stated, refuted). The task titled "Buy milk" is returned for
    the query "MILK", which its title does not contain. *)
Lemma C2_search_exact_substring_counterexample :
  let t := {| Todo.id := 1; Todo.title := "Buy milk"; Todo.completed := false;
              Todo.category := Some "shopping"; Todo.priority := Some "low";
              Todo.createdAt := 50; Todo.updatedAt := 50 |} in
  exists l,
    todoQueries.search "MILK" milk_and_tea = (milk_and_tea, Returns l)
    /\ ~ (In t l
          <-> In t (todoQueries.getAll milk_and_tea)
              /\ includes "MILK" (Todo.title t) = true).
Proof.
  intros t. exists [t]. split; [vm_compute; reflexivity|].
  intros [H _].
  assert (Hin : In t [t]) by (left; reflexivity).
  apply H in Hin as [_ Hinc]. vm_compute in Hinc. discriminate.
Qed.

(** C2 (amended). For a query without NUL of at most 49998 bytes, so that
    the pattern ['%query%'] is within the 50000 bytes LIKE accepts,
    [search] returns a list. LIKE reads a title up to its first NUL, all
    of it when it has none. Every stored task whose title, so read,
    contains the query exactly is in the list; and for a query without
    [%] and [_], a task is in the list if and only if it is stored and its
    title, so read, contains the query up to ASCII letter case. *)
Theorem C2_search_substring_nocase query db t :
  no_nul query = true ->
  Sqlite.utf8_bytes query <= 49998 ->
  exists l,
    todoQueries.search query db = (db, Returns l)
    /\ (In t (todoQueries.getAll db) ->
        includes query (Sqlite.until_nul (Todo.title t)) = true ->
        In t l)
    /\ (no_wildcard query = true ->
        (In t l
         <-> In t (todoQueries.getAll db)
             /\ includes_nocase query (Sqlite.until_nul (Todo.title t)) = true)).
Proof.
  intros Hnul Hlen. eexists. split; [now apply search_within_limit|].
  split.
  - intros Hin Hinc. apply in_search_rows. split; [assumption|].
    unfold Sqlite.matches. rewrite no_nul_pattern by assumption.
    now apply like_contains_exact.
  - intros Hq. rewrite in_search_rows. unfold Sqlite.matches.
    rewrite no_nul_pattern by assumption. now rewrite like_contains_nocase.
Qed.

Lemma C2_search_substring_nocase_witness :
  let t := {| Todo.id := 1; Todo.title := "Buy milk"; Todo.completed := false;
              Todo.category := Some "shopping"; Todo.priority := Some "low";
              Todo.createdAt := 50; Todo.updatedAt := 50 |} in
  (exists l, todoQueries.search "milk" milk_and_tea = (milk_and_tea, Returns l)
             /\ In t l)
  /\ (exists l, todoQueries.search "MILK" milk_and_tea = (milk_and_tea, Returns l)
                /\ (In t l
                    <-> In t (todoQueries.getAll milk_and_tea)
                        /\ includes_nocase "MILK"
                             (Sqlite.until_nul (Todo.title t)) = true)).
Proof.
  intros t. split.
  - destruct (C2_search_substring_nocase "milk" milk_and_tea t)
      as (l & Hrun & Hexact & _); [reflexivity|vm_compute; discriminate|].
    exists l. split; [exact Hrun|]. apply Hexact; vm_compute; auto.
  - destruct (C2_search_substring_nocase "MILK" milk_and_tea t)
      as (l & Hrun & _ & Hiff); [reflexivity|vm_compute; discriminate|].
    exists l. split; [exact Hrun|]. apply Hiff. reflexivity.
Defined.

(** ** Reachable databases *)

Lemma reachable_booleans db : reachable db -> booleans_stored db.
Proof.
  induction 1 as [|now todo db _ IH|now id u db _ IH|id db _ IH]; intros k r.
  - simpl. now rewrite lookup_empty.
  - rewrite create_returns. simpl. rewrite lookup_insert.
    destruct (decide _); [|apply IH].
    intros [= <-]. simpl. destruct (n_completed todo); auto.
  - destruct (no_keys u) eqn:Hu.
    { unfold todoQueries.update. run. rewrite Hu. apply IH. }
    destruct (db_todos db !! id) as [r0|] eqn:Hid.
    + rewrite (update_existing _ _ _ _ r0) by assumption. simpl.
      rewrite lookup_insert. destruct (decide _); [|apply IH].
      intros [= <-]. simpl. destruct (u_completed u) as [[]|]; eauto.
    + rewrite update_missing by assumption. apply IH.
  - simpl. intros [_ H]%lookup_delete_Some. eauto.
Qed.

Lemma reachable_categories db :
  reachable db -> db_categories db = db_categories getDatabase.
Proof.
  induction 1 as [|now todo db _ IH|now id u db _ IH|id db _ IH];
    [reflexivity| | |exact IH].
  - now rewrite create_returns.
  - destruct (no_keys u) eqn:Hu.
    { unfold todoQueries.update. run. now rewrite Hu. }
    destruct (db_todos db !! id) as [r0|] eqn:Hid.
    + now rewrite (update_existing _ _ _ _ r0).
    + now rewrite update_missing.
Qed.

Lemma milk_and_tea_reachable : reachable milk_and_tea.
Proof.
  assert (E : milk_and_tea
              = (todoQueries.create 60
                   (mkNewTodo "Tea" false (Some "general") (Some "medium"))
                   (todoQueries.create 50
                      (mkNewTodo "Buy milk" false (Some "shopping") (Some "low"))
                      getDatabase).1).1)
    by (vm_compute; reflexivity).
  rewrite E. do 2 apply reachable_create. apply reachable_new.
Qed.

Lemma tea_done_reachable : reachable tea_done.
Proof.
  assert (E : tea_done
              = (todoQueries.update 70 2
                   {| u_title := None; u_completed := Some true;
                      u_category := None; u_priority := None |} milk_and_tea).1)
    by (vm_compute; reflexivity).
  rewrite E. apply reachable_update, milk_and_tea_reachable.
Qed.

(** ** The order of [getAll] *)

Lemma StronglySorted_lookup {A} (R : relation A) (l : list A) i j a b :
  StronglySorted R l -> (i < j)%nat ->
  l !! i = Some a -> l !! j = Some b -> R a b.
Proof.
  intros Hs. revert i j. induction Hs as [|x l _ IH Hx]; intros i j Hij Hi Hj.
  - discriminate.
  - destruct j as [|j]; [lia|]. destruct i as [|i]; simpl in *.
    + injection Hi as ->. eapply Forall_lookup_1; eassumption.
    + apply (IH i j); [lia|assumption..].
Qed.

Lemma getAll_lookup db i t :
  todoQueries.getAll db !! i = Some t ->
  exists r, select_todos (fun _ => true) db !! i = Some r
            /\ t = to_Todo r /\ db_todos db !! r.1 = Some r.2.
Proof.
  unfold todoQueries.getAll. rewrite list_lookup_fmap.
  destruct (select_todos _ db !! i) as [r|] eqn:Hr; [|discriminate].
  intros [= <-]. exists r. repeat split.
  apply (in_select_todos (fun _ => true)), list_elem_of_In, list_elem_of_lookup.
  eauto.
Qed.

Lemma getAll_precedes db a b :
  precedes (todoQueries.getAll db) a b ->
  exists ra rb, a = to_Todo ra /\ b = to_Todo rb /\ order_by ra rb
                /\ db_todos db !! ra.1 = Some ra.2
                /\ db_todos db !! rb.1 = Some rb.2.
Proof.
  intros (i & j & Hij & [ra (Hi & -> & Ha)]%getAll_lookup
                      & [rb (Hj & -> & Hb)]%getAll_lookup).
  exists ra, rb. repeat split; try assumption.
  eapply (StronglySorted_lookup order_by); try eassumption.
  apply StronglySorted_merge_sort; apply _.
Qed.

(** Two different members of a list stand one before the other. *)
Lemma precedes_total {A} (l : list A) a b :
  In a l -> In b l -> a <> b -> precedes l a b \/ precedes l b a.
Proof.
  intros [i Hi]%list_elem_of_In%list_elem_of_lookup
         [j Hj]%list_elem_of_In%list_elem_of_lookup Hab.
  destruct (Nat.lt_total i j) as [H|[H|H]].
  - left. exists i, j. auto.
  - subst j. congruence.
  - right. exists j, i. auto.
Qed.

Lemma Boolean_stored c :
  c = 0 \/ c = 1 -> c = if JS.Boolean c then 1 else 0.
Proof. intros [->| ->]; reflexivity. Qed.

(** C3 (as stated, refuted). Of two tasks created within the same second
    neither is older, so the claimed equivalence would place each of them
    before the other. *)
Lemma C3_getAll_order_counterexample :
  ~ (forall a b,
       In a (todoQueries.getAll same_second) ->
       In b (todoQueries.getAll same_second) ->
       Todo.id a <> Todo.id b ->
       Todo.completed a = Todo.completed b ->
       (precedes (todoQueries.getAll same_second) a b
        <-> Todo.createdAt b <= Todo.createdAt a)).
Proof.
  intros H.
  assert (El : exists x y, todoQueries.getAll same_second = [x; y]
                           /\ Todo.id x <> Todo.id y
                           /\ Todo.completed x = Todo.completed y
                           /\ Todo.createdAt x = Todo.createdAt y).
  { eexists _, _. split; [vm_compute; reflexivity|]. simpl. repeat split; lia. }
  destruct El as (x & y & El & Hid & Hc & Ht). rewrite El in H.
  destruct (H y x) as [_ Hyx]; [simpl; auto..|congruence|].
  destruct Hyx as (i & j & Hij & Hi & Hj); [lia|].
  destruct j as [|[|j]]; [lia| |discriminate].
  destruct i as [|i]; [|lia]. simpl in Hi, Hj. congruence.
Qed.

(** C3 (amended). On every reachable database [getAll] returns the stored
    tasks, each once; every incomplete task stands before every completed
    one; of two tasks with the same completion status the one that stands
    first was created no earlier than the other, and a task created
    strictly later than another stands before it. Nothing is said of the
    order of tasks created within the same second. *)
Theorem C3_getAll_order db :
  reachable db ->
  let l := todoQueries.getAll db in
  l ≡ₚ to_Todo <$> map_to_list (db_todos db)
  /\ (forall a b, In a l -> In b l ->
        Todo.completed a = false -> Todo.completed b = true -> precedes l a b)
  /\ (forall a b, precedes l a b -> Todo.completed a = Todo.completed b ->
        Todo.createdAt b <= Todo.createdAt a)
  /\ (forall a b, In a l -> In b l -> Todo.completed a = Todo.completed b ->
        Todo.createdAt b < Todo.createdAt a -> precedes l a b).
Proof.
  intros Hr%reachable_booleans l. split; [|split; [|split]].
  - unfold l, todoQueries.getAll, select_todos.
    rewrite merge_sort_Permutation. now rewrite filter_all.
  - intros a b Ha Hb Hca Hcb.
    destruct (precedes_total l a b Ha Hb) as [H|H]; [congruence|exact H|].
    exfalso. apply getAll_precedes in H as (rb & ra & -> & -> & Hord & Hsb & Hsa).
    apply Hr, Boolean_stored in Hsa, Hsb. simpl in Hca, Hcb.
    rewrite Hca in Hsa. rewrite Hcb in Hsb.
    unfold order_by in Hord. lia.
  - intros a b (ra & rb & -> & -> & Hord & Hsa & Hsb)%getAll_precedes Hc.
    apply Hr, Boolean_stored in Hsa, Hsb. simpl in *.
    rewrite Hc in Hsa. unfold order_by in Hord. lia.
  - intros a b Ha Hb Hc Ht.
    destruct (precedes_total l a b Ha Hb) as [H|H]; [intros ->; lia|exact H|].
    exfalso. apply getAll_precedes in H as (rb & ra & -> & -> & Hord & Hsb & Hsa).
    apply Hr, Boolean_stored in Hsa, Hsb. simpl in *.
    rewrite Hc in Hsa. unfold order_by in Hord. lia.
Qed.

Lemma C3_getAll_order_witness :
  let milk := {| Todo.id := 1; Todo.title := "Buy milk"; Todo.completed := false;
                 Todo.category := Some "shopping"; Todo.priority := Some "low";
                 Todo.createdAt := 50; Todo.updatedAt := 50 |} in
  let tea := {| Todo.id := 2; Todo.title := "Tea"; Todo.completed := true;
                Todo.category := Some "general"; Todo.priority := Some "medium";
                Todo.createdAt := 60; Todo.updatedAt := 70 |} in
  let tea_before := {| Todo.id := 2; Todo.title := "Tea"; Todo.completed := false;
                       Todo.category := Some "general"; Todo.priority := Some "medium";
                       Todo.createdAt := 60; Todo.updatedAt := 60 |} in
  precedes (todoQueries.getAll tea_done) milk tea
  /\ precedes (todoQueries.getAll milk_and_tea) tea_before milk.
Proof.
  intros milk tea tea_before. split.
  - destruct (C3_getAll_order tea_done tea_done_reachable) as (_ & H & _).
    apply H; [vm_compute; auto..|reflexivity|reflexivity].
  - destruct (C3_getAll_order milk_and_tea milk_and_tea_reachable) as (_ & _ & _ & H).
    apply H; [vm_compute; auto..|reflexivity|reflexivity].
Defined.

(** ** Categories and their counts *)

Lemma length_filter_Permutation {A} (f : A -> bool) (l l' : list A) :
  l ≡ₚ l' -> List.length (List.filter f l) = List.length (List.filter f l').
Proof.
  induction 1 as [|x l l' _ IH|x y l|l l' l'' _ IH1 _ IH2]; simpl.
  - reflexivity.
  - destruct (f x); simpl; now rewrite IH.
  - destruct (f x), (f y); reflexivity.
  - now rewrite IH1.
Qed.

Lemma length_filter_fmap {A B} (f : B -> bool) (g : A -> B) (l : list A) :
  List.length (List.filter f (g <$> l))
  = List.length (List.filter (fun x => f (g x)) l).
Proof.
  induction l as [|x l IH]; [reflexivity|].
  rewrite fmap_cons. cbn [List.filter].
  destruct (f (g x)); cbn [List.length]; now rewrite IH.
Qed.

Lemma COUNT_left_join c ts :
  COUNT (left_join c ts)
  = Z.of_nat
      (List.length
         (List.filter
            (fun t => bool_decide (todos.category t.2 = Some (categories.name c)))
            ts)).
Proof.
  unfold left_join. destruct (List.filter _ ts) as [|t matched]; [reflexivity|].
  unfold COUNT. rewrite length_filter_fmap, filter_all; reflexivity.
Qed.

Lemma tasks_in_category_rows name db :
  tasks_in_category name db
  = Z.of_nat
      (List.length
         (List.filter (fun t => bool_decide (todos.category t.2 = Some name))
            (map_to_list (db_todos db)))).
Proof.
  unfold tasks_in_category, todoQueries.getAll, select_todos.
  rewrite length_filter_fmap. f_equal.
  rewrite (filter_all (fun _ => true)) by reflexivity.
  apply length_filter_Permutation, merge_sort_Permutation.
Qed.

(** C7. On every reachable database [getCategories] returns the four
    seeded categories, no other row, in the order general, personal,
    shopping, work of their names, each with the number of stored tasks
    whose category is exactly its name, which may be zero. *)
Theorem C7_getCategories db :
  reachable db ->
  todoQueries.getCategories db
  = [ {| Category.id := 1; Category.name := "general";
         Category.color := Some "#6366f1";
         Category.count := tasks_in_category "general" db |};
      {| Category.id := 3; Category.name := "personal";
         Category.color := Some "#059669";
         Category.count := tasks_in_category "personal" db |};
      {| Category.id := 4; Category.name := "shopping";
         Category.color := Some "#d97706";
         Category.count := tasks_in_category "shopping" db |};
      {| Category.id := 2; Category.name := "work";
         Category.color := Some "#dc2626";
         Category.count := tasks_in_category "work" db |} ].
Proof.
  intros Hc%reachable_categories. unfold todoQueries.getCategories.
  rewrite Hc. simpl fmap. rewrite !COUNT_left_join, <- !tasks_in_category_rows.
  simpl categories.name.
  generalize (tasks_in_category "general" db) (tasks_in_category "work" db)
             (tasks_in_category "personal" db) (tasks_in_category "shopping" db).
  intros g w p s. vm_compute. reflexivity.
Qed.

Lemma C7_getCategories_witness :
  todoQueries.getCategories milk_and_tea
  = [ Category.mk 1 "general" (Some "#6366f1") 1;
      Category.mk 3 "personal" (Some "#059669") 0;
      Category.mk 4 "shopping" (Some "#d97706") 1;
      Category.mk 2 "work" (Some "#dc2626") 0 ].
Proof. exact (C7_getCategories milk_and_tea milk_and_tea_reachable). Defined.

(** * Further properties of the queries *)

(** ** Row identifiers *)

Lemma max_rowid_nonneg (m : gmap Z todos.row) : 0 <= max_rowid m.
Proof.
  unfold max_rowid. induction (map_to_list m).*1 as [|x l IH]; cbn [foldr]; lia.
Qed.

Lemma max_rowid_le (m : gmap Z todos.row) b :
  0 <= b -> (forall k r, m !! k = Some r -> k <= b) -> max_rowid m <= b.
Proof.
  intros Hb H. unfold max_rowid.
  assert (Hall : Forall (fun k => k <= b) (map_to_list m).*1).
  { apply Forall_forall. intros k [[k' r] [-> Hin]]%list_elem_of_fmap.
    apply elem_of_map_to_list in Hin. eauto. }
  induction Hall as [|x l Hx _ IH]; cbn [foldr]; lia.
Qed.

(** X1. [create] gives the new row an id above every id in the table and
    above the AUTOINCREMENT counter; creating again after that very row was
    deleted gives the next id, not the freed one. *)
Theorem create_id_never_reused now1 now2 todo1 todo2 db :
  exists a b db1 db3,
    todoQueries.create now1 todo1 db = (db1, Returns a)
    /\ todoQueries.create now2 todo2 (todoQueries.delete (Todo.id a) db1).1
       = (db3, Returns b)
    /\ (forall k r, db_todos db !! k = Some r -> k < Todo.id a)
    /\ db_todos_seq db < Todo.id a
    /\ Todo.id b = Todo.id a + 1.
Proof.
  eexists _, _, _, _. split; [apply create_returns|].
  split; [apply create_returns|]. cbn [to_Todo Todo.id fst].
  split; [|split].
  - intros k r H%max_rowid_ge. lia.
  - lia.
  - cbn [todoQueries.delete fst db_todos db_todos_seq].
    rewrite delete_insert_eq.
    pose proof (max_rowid_nonneg (db_todos db)) as H0.
    pose proof (max_rowid_nonneg (base.delete
      (Z.max (db_todos_seq db) (max_rowid (db_todos db)) + 1) (db_todos db))) as H1.
    assert (max_rowid (base.delete
      (Z.max (db_todos_seq db) (max_rowid (db_todos db)) + 1) (db_todos db))
            <= max_rowid (db_todos db)).
    { apply max_rowid_le; [assumption|].
      intros k r [_ H]%lookup_delete_Some. now apply max_rowid_ge in H. }
    lia.
Qed.

Lemma reachable_ids db :
  reachable db ->
  0 <= db_todos_seq db
  /\ forall k r, db_todos db !! k = Some r -> 1 <= k <= db_todos_seq db.
Proof.
  induction 1 as [|now todo db _ [IH0 IH]|now id u db _ [IH0 IH]|id db _ [IH0 IH]].
  - split; [simpl; lia|]. intros k r. simpl. now rewrite lookup_empty.
  - rewrite create_returns. cbn [fst db_todos db_todos_seq].
    pose proof (max_rowid_nonneg (db_todos db)) as Hm.
    split; [lia|]. intros k r. rewrite lookup_insert.
    destruct (decide _) as [<-|_]; [intros _; lia|].
    intros H. pose proof (max_rowid_ge _ _ _ H). apply IH in H. lia.
  - destruct (no_keys u) eqn:Hu.
    { unfold todoQueries.update. run. rewrite Hu. simpl. auto. }
    destruct (db_todos db !! id) as [r0|] eqn:Hid.
    + rewrite (update_existing _ _ _ _ r0) by assumption.
      cbn [fst db_todos db_todos_seq]. split; [assumption|].
      intros k r. rewrite lookup_insert.
      destruct (decide _) as [<-|_]; [intros _; eauto|apply IH].
    + rewrite update_missing by assumption. auto.
  - simpl. split; [assumption|]. intros k r [_ H]%lookup_delete_Some. eauto.
Qed.

(** X2. On every reachable database the ids of the stored tasks are
    positive and at most the AUTOINCREMENT counter, so the next task
    created gets exactly the counter plus one. *)
Theorem reachable_ids_bounded db :
  reachable db ->
  (forall t, In t (todoQueries.getAll db) -> 1 <= Todo.id t <= db_todos_seq db)
  /\ forall now todo,
       exists a db', todoQueries.create now todo db = (db', Returns a)
                     /\ Todo.id a = db_todos_seq db + 1.
Proof.
  intros [H0 H]%reachable_ids. split.
  - intros t [r [Hr _]]%in_getAll. eauto.
  - intros now todo. eexists _, _. split; [apply create_returns|].
    cbn [to_Todo Todo.id fst].
    pose proof (max_rowid_nonneg (db_todos db)).
    assert (max_rowid (db_todos db) <= db_todos_seq db).
    { apply max_rowid_le; [assumption|]. intros k r Hk. apply H in Hk. lia. }
    lia.
Qed.

Lemma reachable_ids_bounded_witness :
  (forall t, In t (todoQueries.getAll milk_and_tea) -> 1 <= Todo.id t <= 2)
  /\ forall now todo,
       exists a db', todoQueries.create now todo milk_and_tea = (db', Returns a)
                     /\ Todo.id a = 3.
Proof. exact (reachable_ids_bounded milk_and_tea milk_and_tea_reachable). Defined.

Lemma NoDup_fst_filter {A B} (f : A * B -> bool) (l : list (A * B)) :
  NoDup l.*1 -> NoDup (List.filter f l).*1.
Proof.
  induction l as [|x l IH]; simpl; [auto|].
  intros [Hx Hl]%NoDup_cons. destruct (f x); [|auto].
  rewrite fmap_cons. apply NoDup_cons. split; [|auto].
  intros [y [Hy Hin]]%list_elem_of_fmap. apply Hx, list_elem_of_fmap.
  exists y. split; [assumption|].
  apply list_elem_of_In. apply list_elem_of_In, filter_In in Hin. tauto.
Qed.

Lemma select_todos_ids condition db :
  Todo.id <$> (to_Todo <$> select_todos condition db) = (select_todos condition db).*1.
Proof. rewrite <- list_fmap_compose. reflexivity. Qed.

(** X3. No list of tasks a query returns holds two tasks with the same
    id: neither [getAll], nor [getByCategory], nor [search]. *)
Theorem queries_ids_distinct db :
  NoDup (Todo.id <$> todoQueries.getAll db)
  /\ (forall category, NoDup (Todo.id <$> todoQueries.getByCategory category db))
  /\ (forall query db' l,
        todoQueries.search query db = (db', Returns l) -> NoDup (Todo.id <$> l)).
Proof.
  assert (H : forall condition,
             NoDup (Todo.id <$> (to_Todo <$> select_todos condition db))).
  { intros condition. rewrite select_todos_ids. unfold select_todos.
    rewrite merge_sort_Permutation. apply NoDup_fst_filter, NoDup_fst_map_to_list. }
  split; [apply H|]. split; [intros; apply H|].
  intros query db' l [_ ->]%search_returns_inv. apply H.
Qed.

Lemma queries_ids_distinct_witness :
  NoDup (Todo.id <$> [ {| Todo.id := 1; Todo.title := "Buy milk";
                          Todo.completed := false;
                          Todo.category := Some "shopping";
                          Todo.priority := Some "low";
                          Todo.createdAt := 50; Todo.updatedAt := 50 |} ]).
Proof.
  destruct (queries_ids_distinct milk_and_tea) as (_ & _ & H).
  apply (H "MILK" milk_and_tea). vm_compute. reflexivity.
Defined.

(** ** Deleting *)

(** X4. [deleteTodoAction] reports success whether or not the id is in
    the table. Afterwards the queries return the tasks they returned
    before except the one of that id; an id that was not in the table
    leaves the database as it was, so deleting twice is deleting once. *)
Theorem deleteTodoAction_removes id db :
  exists db',
    deleteTodoAction id db
    = (db', Returns {| success := Some true;
                       message := Some "Todo deleted successfully!";
                       error := None; data := None |})
    /\ (forall t, In t (todoQueries.getAll db')
                  <-> In t (todoQueries.getAll db) /\ Todo.id t <> id)
    /\ (db_todos db !! id = None -> db' = db)
    /\ (deleteTodoAction id db').1 = db'.
Proof.
  eexists. split; [reflexivity|]. split; [|split].
  - intros t. rewrite !in_getAll. cbn [db_todos]. split.
    + intros [r [[Hne Hr]%lookup_delete_Some Ht]]. eauto.
    + intros [[r [Hr Ht]] Hne]. exists r. split; [|assumption].
      apply lookup_delete_Some. auto.
  - intros Hid. rewrite delete_id by assumption. apply Database_eta.
  - cbn. now rewrite delete_delete_eq.
Qed.

Lemma deleteTodoAction_removes_witness :
  exists db',
    (deleteTodoAction 7 milk_and_tea).1 = db' /\ db' = milk_and_tea.
Proof.
  destruct (deleteTodoAction_removes 7 milk_and_tea) as (db' & Hrun & _ & Hsame & _).
  exists db'. split; [now rewrite Hrun|]. apply Hsame. reflexivity.
Defined.

(** ** Updating *)

(** X5. Whatever [update] is given and whether it returns or throws, it
    neither adds nor removes a task, leaves every row but the one of its
    id untouched, and never writes the AUTOINCREMENT counter or the
    categories. *)
Theorem update_touches_one_row now id u db :
  let db' := (todoQueries.update now id u db).1 in
  (forall j, j <> id -> db_todos db' !! j = db_todos db !! j)
  /\ (forall j, is_Some (db_todos db' !! j) <-> is_Some (db_todos db !! j))
  /\ db_todos_seq db' = db_todos_seq db
  /\ db_categories db' = db_categories db.
Proof.
  intros db'. subst db'. destruct (no_keys u) eqn:Hu.
  { unfold todoQueries.update. run. rewrite Hu. simpl. tauto. }
  destruct (db_todos db !! id) as [r0|] eqn:Hid.
  - rewrite (update_existing _ _ _ _ r0) by assumption. cbn.
    repeat split; try (intros j Hj; now rewrite lookup_insert_ne).
    + rewrite lookup_insert. destruct (decide _) as [<-|_]; [|auto].
      intros _. rewrite Hid. eauto.
    + rewrite lookup_insert. destruct (decide _) as [<-|_]; [eauto|auto].
  - rewrite update_missing by assumption. cbn. tauto.
Qed.

Lemma update_touches_one_row_witness :
  db_todos (todoQueries.update 70 2
              {| u_title := Some "Green tea"; u_completed := Some true;
                 u_category := None; u_priority := None |} milk_and_tea).1 !! 1
  = db_todos milk_and_tea !! 1.
Proof.
  apply (update_touches_one_row 70 2
           {| u_title := Some "Green tea"; u_completed := Some true;
              u_category := None; u_priority := None |} milk_and_tea).
  lia.
Defined.

(** ** Filtering by category *)

Lemma in_getByCategory category db t :
  In t (todoQueries.getByCategory category db)
  <-> In t (todoQueries.getAll db) /\ Todo.category t = Some category.
Proof.
  rewrite in_getAll. unfold todoQueries.getByCategory.
  rewrite <- list_elem_of_In, list_elem_of_fmap. split.
  - intros [[k v] [-> [H Hc%bool_decide_eq_true]%list_elem_of_In%in_select_todos]].
    simpl in *. eauto.
  - intros [[r [H Ht]] Hc]. exists (Todo.id t, r). split; [assumption|].
    apply list_elem_of_In, in_select_todos. split; [assumption|].
    apply bool_decide_eq_true. rewrite Ht in Hc. exact Hc.
Qed.

Lemma length_getByCategory category db :
  Z.of_nat (List.length (todoQueries.getByCategory category db))
  = tasks_in_category category db.
Proof.
  rewrite tasks_in_category_rows. unfold todoQueries.getByCategory, select_todos.
  now rewrite length_fmap, merge_sort_Permutation.
Qed.

(** X6. [getTodosByCategoryAction] returns every stored task for the
    category "all", so a category of that name cannot be filtered for; for
    any other name it returns exactly the stored tasks whose category is
    that name. It never changes the database. *)
Theorem getTodosByCategoryAction_members category db :
  exists l,
    getTodosByCategoryAction category db = (db, Returns l)
    /\ (category = "all" -> l = todoQueries.getAll db)
    /\ (category <> "all" ->
        forall t, In t l <-> In t (todoQueries.getAll db)
                            /\ Todo.category t = Some category).
Proof.
  unfold getTodosByCategoryAction.
  destruct (String.eqb_spec category "all") as [->|Hne].
  - eexists. split; [reflexivity|]. split; [reflexivity|]. intros H. now destruct H.
  - eexists. split; [reflexivity|]. split; [intros H; now destruct Hne|].
    intros _ t. apply in_getByCategory.
Qed.

Lemma getTodosByCategoryAction_members_witness :
  (exists l, getTodosByCategoryAction "all" milk_and_tea = (milk_and_tea, Returns l)
             /\ l = todoQueries.getAll milk_and_tea)
  /\ (exists l, getTodosByCategoryAction "shopping" milk_and_tea
                = (milk_and_tea, Returns l)
                /\ forall t, In t l <-> In t (todoQueries.getAll milk_and_tea)
                                       /\ Todo.category t = Some "shopping").
Proof.
  split.
  - destruct (getTodosByCategoryAction_members "all" milk_and_tea)
      as (l & Hrun & Hall & _).
    exists l. split; [exact Hrun|]. apply Hall. reflexivity.
  - destruct (getTodosByCategoryAction_members "shopping" milk_and_tea)
      as (l & Hrun & _ & Hcat).
    exists l. split; [exact Hrun|]. apply Hcat. discriminate.
Defined.

(** X7. The count [getCategories] reports for a category is the number of
    tasks [getByCategory] returns for its name: the number on a category
    button is the length of the list the button shows. *)
Theorem category_count_is_filter_length db c :
  In c (todoQueries.getCategories db) ->
  Category.count c
  = Z.of_nat (List.length (todoQueries.getByCategory (Category.name c) db)).
Proof.
  unfold todoQueries.getCategories.
  rewrite <- list_elem_of_In, merge_sort_Permutation, list_elem_of_fmap.
  intros [row [-> _]]. cbn [Category.count Category.name].
  now rewrite COUNT_left_join, length_getByCategory, tasks_in_category_rows.
Qed.

Lemma category_count_is_filter_length_witness :
  Category.count (Category.mk 4 "shopping" (Some "#d97706") 1)
  = Z.of_nat (List.length (todoQueries.getByCategory "shopping" milk_and_tea)).
Proof.
  apply (category_count_is_filter_length milk_and_tea
           (Category.mk 4 "shopping" (Some "#d97706") 1)).
  vm_compute. auto.
Defined.

(** ** The edit action *)

Lemma updateTodoAction_existing now id prevState formData db r title :
  db_todos db !! id = Some r ->
  JS.get formData "title" = Some title ->
  1 <= JS.length (JS.trim title) <= 200 ->
  let u := {| u_title := Some (JS.trim title);
              u_completed := None;
              u_category := Some (JS.get formData "category");
              u_priority := Some (JS.get formData "priority") |} in
  updateTodoAction now id prevState formData db
  = ({| db_todos := <[id := set_fields u now r]> (db_todos db);
        db_todos_seq := db_todos_seq db;
        db_categories := db_categories db |},
     Returns (succeeded "Todo updated successfully!" (to_Todo (id, set_fields u now r)))).
Proof.
  intros Hid Ht Hlen u. unfold updateTodoAction. rewrite Ht.
  destruct (title_accepted title Hlen) as [-> ->].
  unfold try_catch, bind. fold u.
  rewrite (update_existing _ _ _ _ r) by (assumption || reflexivity).
  reflexivity.
Qed.

(** X8. Editing a stored task with a title of trimmed length 1 to 200
    succeeds and returns the task with the trimmed title and with the
    category and the priority exactly as the form gives them: a field the
    form omits becomes [null], there is no default as in the create
    action. Completion, id and creation time stay, the update time is the
    current time. *)
Theorem updateTodoAction_edits now id prevState formData db r title :
  db_todos db !! id = Some r ->
  JS.get formData "title" = Some title ->
  1 <= JS.length (JS.trim title) <= 200 ->
  exists after db',
    updateTodoAction now id prevState formData db
    = (db', Returns (succeeded "Todo updated successfully!" after))
    /\ to_Todo <$> select_by_id id db' = Some after
    /\ after = {| Todo.id := id;
                  Todo.title := JS.trim title;
                  Todo.completed := JS.Boolean (todos.completed r);
                  Todo.category := JS.get formData "category";
                  Todo.priority := JS.get formData "priority";
                  Todo.createdAt := todos.created_at r;
                  Todo.updatedAt := now |}.
Proof.
  intros Hid Ht Hlen. eexists _, _.
  split; [exact (updateTodoAction_existing now id prevState formData db r title Hid Ht Hlen)|].
  split; [|reflexivity].
  unfold select_by_id. cbn [db_todos]. now rewrite lookup_insert_eq.
Qed.

Lemma updateTodoAction_edits_witness :
  exists after db',
    updateTodoAction 70 1 no_state [("title", " Buy oat milk ")] milk_and_tea
    = (db', Returns (succeeded "Todo updated successfully!" after))
    /\ after = {| Todo.id := 1; Todo.title := "Buy oat milk";
                  Todo.completed := false;
                  Todo.category := None; Todo.priority := None;
                  Todo.createdAt := 50; Todo.updatedAt := 70 |}.
Proof.
  destruct (updateTodoAction_edits 70 1 no_state [("title", " Buy oat milk ")]
              milk_and_tea
              (todos.mk "Buy milk" 0 (Some "shopping") (Some "low") 50 50)
              " Buy oat milk " eq_refl eq_refl)
    as (after & db' & Hrun & _ & Hafter).
  { vm_compute. split; discriminate. }
  exists after, db'. split; [exact Hrun|exact Hafter].
Defined.

(** X9. The edit action refuses a form without a title, with a blank
    title, or with a title longer than 200 code units after trimming,
    before it looks at the id: the database is unchanged and the message
    is the one of the create action. *)
Theorem updateTodoAction_rejects now id prevState formData db :
  (JS.get formData "title" = None ->
   updateTodoAction now id prevState formData db
   = (db, Returns (failure "Todo title is required")))
  /\ (forall title,
        JS.get formData "title" = Some title ->
        (blank title = true ->
         updateTodoAction now id prevState formData db
         = (db, Returns (failure "Todo title is required")))
        /\ (200 < JS.length (JS.trim title) ->
            updateTodoAction now id prevState formData db
            = (db, Returns (failure "Todo title must be less than 200 characters")))).
Proof.
  split; [|intros title Ht; split].
  - intros Ht. unfold updateTodoAction. now rewrite Ht.
  - intros Hb. unfold updateTodoAction. rewrite Ht, (trim_blank _ Hb).
    change (JS.length "" =? 0)%Z with true. now rewrite orb_true_r.
  - intros Hlen. unfold updateTodoAction. rewrite Ht.
    assert (Hne : JS.not (Some title) = false).
    { destruct (JS.not (Some title)) eqn:E; [|reflexivity].
      apply not_title_length in E. lia. }
    rewrite Hne. simpl orb.
    destruct (Z.eqb_spec (JS.length (JS.trim title)) 0) as [E|_]; [lia|].
    destruct (Z.gtb_spec (JS.length (JS.trim title)) 200) as [_|E]; [|lia].
    reflexivity.
Qed.

Lemma updateTodoAction_rejects_witness :
  updateTodoAction 70 1 no_state [("category", "work")] milk_and_tea
  = (milk_and_tea, Returns (failure "Todo title is required"))
  /\ updateTodoAction 70 1 no_state [("title", " ")] milk_and_tea
     = (milk_and_tea, Returns (failure "Todo title is required"))
  /\ updateTodoAction 70 9 no_state [("title", repeat_char "a" 201)] milk_and_tea
     = (milk_and_tea, Returns (failure "Todo title must be less than 200 characters")).
Proof.
  split; [|split].
  - destruct (updateTodoAction_rejects 70 1 no_state [("category", "work")]
                milk_and_tea) as [Hnone _].
    apply Hnone. reflexivity.
  - destruct (updateTodoAction_rejects 70 1 no_state [("title", " ")]
                milk_and_tea) as [_ Hsome].
    apply (Hsome " "); reflexivity.
  - destruct (updateTodoAction_rejects 70 9 no_state
                [("title", repeat_char "a" 201)] milk_and_tea) as [_ Hsome].
    apply (Hsome (repeat_char "a" 201)).
    + reflexivity.
    + vm_compute. reflexivity.
Defined.

(** ** Counting the tasks of a category *)

Lemma rows_in_category_insert_fresh name (m : gmap Z todos.row) k r :
  m !! k = None ->
  rows_in_category name (<[k := r]> m)
  = rows_in_category name m + indicator (todos.category r) name.
Proof.
  intros H. unfold rows_in_category, indicator.
  rewrite (length_filter_Permutation _ _ _ (map_to_list_insert m k r H)).
  cbn [List.filter snd]. destruct (bool_decide _); cbn [List.length]; lia.
Qed.

Lemma rows_in_category_delete name (m : gmap Z todos.row) k r :
  m !! k = Some r ->
  rows_in_category name m
  = rows_in_category name (base.delete k m) + indicator (todos.category r) name.
Proof.
  intros H. unfold rows_in_category, indicator.
  rewrite <- (length_filter_Permutation _ _ _ (map_to_list_delete m k r H)).
  cbn [List.filter snd]. destruct (bool_decide _); cbn [List.length]; lia.
Qed.

Lemma rows_in_category_replace name (m : gmap Z todos.row) k r r' :
  m !! k = Some r ->
  rows_in_category name (<[k := r']> m)
  = rows_in_category name m - indicator (todos.category r) name
    + indicator (todos.category r') name.
Proof.
  intros H. rewrite <- insert_delete_eq.
  rewrite rows_in_category_insert_fresh by apply lookup_delete_eq.
  rewrite (rows_in_category_delete name m k r H). lia.
Qed.

Lemma getCategories_rows db :
  todoQueries.getCategories db
  = merge_sort order_by_name
      ((fun c =>
          {| Category.id := categories.id c;
             Category.name := categories.name c;
             Category.color := categories.color c;
             Category.count := rows_in_category (categories.name c) (db_todos db) |})
         <$> db_categories db).
Proof.
  unfold todoQueries.getCategories. f_equal. apply list_fmap_ext.
  intros i c _. now rewrite COUNT_left_join.
Qed.

(** The categories reported depend on the category counts only. *)
Lemma getCategories_ext db db' :
  db_categories db' = db_categories db ->
  (forall name, rows_in_category name (db_todos db')
                = rows_in_category name (db_todos db)) ->
  todoQueries.getCategories db' = todoQueries.getCategories db.
Proof.
  intros Hc Hn. rewrite !getCategories_rows, Hc. f_equal.
  apply list_fmap_ext. intros i c _. now rewrite Hn.
Qed.

Lemma getCategories_seeded db :
  db_categories db = db_categories getDatabase ->
  todoQueries.getCategories db
  = seeded_with (fun name => rows_in_category name (db_todos db)).
Proof.
  intros Hc. rewrite getCategories_rows, Hc. cbn [db_categories getDatabase fmap list_fmap].
  cbn [categories.name categories.id categories.color].
  unfold seeded_with.
  generalize (rows_in_category "general" (db_todos db))
             (rows_in_category "work" (db_todos db))
             (rows_in_category "personal" (db_todos db))
             (rows_in_category "shopping" (db_todos db)).
  intros g w p s. vm_compute. reflexivity.
Qed.

(** X10. Toggling never moves a task between categories: whatever the
    id, the categories and counts reported after [toggleTodoAction] are
    those reported before, and no task appears or disappears. *)
Theorem toggleTodoAction_keeps_counts now id db :
  let db' := (toggleTodoAction now id db).1 in
  todoQueries.getCategories db' = todoQueries.getCategories db
  /\ forall j, is_Some (db_todos db' !! j) <-> is_Some (db_todos db !! j).
Proof.
  intros db'. subst db'. destruct (db_todos db !! id) as [r|] eqn:Hid.
  - rewrite (toggleTodoAction_existing now id db r Hid). cbn [fst]. split.
    + apply getCategories_ext; [reflexivity|]. intros name. cbn [db_todos].
      rewrite (rows_in_category_replace name _ id r) by assumption.
      cbn [set_fields todos.category u_category default]. lia.
    + intros j. cbn [db_todos]. rewrite lookup_insert.
      destruct (decide _) as [<-|_]; [|reflexivity].
      rewrite Hid. split; eauto.
  - rewrite toggleTodoAction_missing by assumption. split; reflexivity.
Qed.

(** * The page state and the database *)

(** ** What a successful action did to the database *)

Lemma update_returns_inv now id u db db' t :
  todoQueries.update now id u db = (db', Returns t) ->
  exists r,
    db_todos db !! id = Some r
    /\ db' = {| db_todos := <[id := set_fields u now r]> (db_todos db);
                db_todos_seq := db_todos_seq db;
                db_categories := db_categories db |}
    /\ t = to_Todo (id, set_fields u now r).
Proof.
  destruct (no_keys u) eqn:Hu.
  { unfold todoQueries.update. run. rewrite Hu. discriminate. }
  destruct (db_todos db !! id) as [r|] eqn:Hid.
  - rewrite (update_existing _ _ _ _ r) by assumption.
    intros [= <- <-]. eauto.
  - rewrite update_missing by assumption. discriminate.
Qed.

Lemma createTodoAction_succeeded now prevState formData db db' a t :
  createTodoAction now prevState formData db = (db', Returns a) ->
  data a = Some t ->
  exists todo, todoQueries.create now todo db = (db', Returns t).
Proof.
  unfold createTodoAction. destruct (JS.get formData "title") as [title|].
  2: { intros [= <- <-]. discriminate. }
  destruct (_ || _). { intros [= <- <-]. discriminate. }
  destruct (_ >? _)%Z. { intros [= <- <-]. discriminate. }
  unfold try_catch, bind.
  destruct (todoQueries.create _ _ _) as [db1 [t1|e]] eqn:Hcr.
  - unfold ret. intros [= <- <-] [= <-]. eauto.
  - unfold ret. intros [= <- <-]. discriminate.
Qed.

Lemma toggleTodoAction_succeeded now id db db' a t :
  toggleTodoAction now id db = (db', Returns a) ->
  data a = Some t ->
  exists u, todoQueries.update now id u db = (db', Returns t).
Proof.
  destruct (db_todos db !! id) as [r|] eqn:Hid.
  - rewrite (toggleTodoAction_existing now id db r Hid).
    intros [= <- <-] [= <-]. eexists.
    apply (update_existing _ _ _ _ r); [assumption|reflexivity].
  - rewrite toggleTodoAction_missing by assumption.
    intros [= <- <-]. discriminate.
Qed.

Lemma updateTodoAction_succeeded now id prevState formData db db' a t :
  updateTodoAction now id prevState formData db = (db', Returns a) ->
  data a = Some t ->
  exists u, todoQueries.update now id u db = (db', Returns t).
Proof.
  unfold updateTodoAction. destruct (JS.get formData "title") as [title|].
  2: { intros [= <- <-]. discriminate. }
  destruct (_ || _). { intros [= <- <-]. discriminate. }
  destruct (_ >? _)%Z. { intros [= <- <-]. discriminate. }
  unfold try_catch, bind.
  destruct (todoQueries.update _ _ _ _) as [db1 [t1|e]] eqn:Hup.
  - unfold ret. intros [= <- <-] [= <-]. eauto.
  - unfold ret. intros [= <- <-]. discriminate.
Qed.

(** ** Members and counts after a write *)

Lemma in_getAll_insert db k r' seq cats x :
  In x (todoQueries.getAll
          {| db_todos := <[k := r']> (db_todos db);
             db_todos_seq := seq;
             db_categories := cats |})
  <-> x = to_Todo (k, r') \/ (In x (todoQueries.getAll db) /\ Todo.id x <> k).
Proof.
  rewrite !in_getAll. cbn [db_todos]. split.
  - intros [r [Hr Hx]]. rewrite lookup_insert in Hr.
    destruct (decide (k = Todo.id x)) as [->|Hne].
    + injection Hr as <-. now left.
    + right. split; [eauto|congruence].
  - intros [->|[[r [Hr Hx]] Hne]].
    + exists r'. cbn. now rewrite lookup_insert_eq.
    + exists r. split; [|assumption]. now rewrite lookup_insert_ne.
Qed.

Lemma find_synced (l : list Todo.t) db id :
  (forall t, In t l <-> In t (todoQueries.getAll db)) ->
  List.find (fun t => (Todo.id t =? id)%Z) l = to_Todo <$> select_by_id id db.
Proof.
  intros Hl. unfold select_by_id.
  destruct (List.find _ _) as [t|] eqn:Hfind.
  - apply find_some in Hfind as [[r [Hr Ht]]%Hl%in_getAll Hid].
    apply Z.eqb_eq in Hid. subst id. rewrite Hr. simpl. now rewrite <- Ht.
  - destruct (db_todos db !! id) as [r|] eqn:Hr; [|reflexivity].
    exfalso. pose proof (find_none _ _ Hfind (to_Todo (id, r))) as H.
    simpl in H. rewrite Z.eqb_refl in H.
    assert (false = true); [|discriminate]. symmetry. apply H.
    apply Hl, in_getAll. simpl. eauto.
Qed.

Lemma in_replace_todo t l x :
  In x (Home.replace_todo t l)
  <-> (x = t /\ exists y, In y l /\ Todo.id y = Todo.id t)
      \/ (In x l /\ Todo.id x <> Todo.id t).
Proof.
  unfold Home.replace_todo. rewrite <- list_elem_of_In, list_elem_of_fmap. split.
  - intros [y [-> Hy%list_elem_of_In]].
    destruct (Z.eqb_spec (Todo.id y) (Todo.id t)); [left|right]; eauto.
  - intros [[-> [y [Hy Hid]]]|[Hx Hne]].
    + exists y. split; [|now apply list_elem_of_In].
      apply Z.eqb_eq in Hid. now rewrite Hid.
    + exists x. split; [|now apply list_elem_of_In].
      apply Z.eqb_neq in Hne. now rewrite Hne.
Qed.

Lemma map_seeded (g : Category.t -> Category.t) (f f' : string -> Z) :
  (forall i n c, g (Category.mk i n c (f n)) = Category.mk i n c (f' n)) ->
  g <$> seeded_with f = seeded_with f'.
Proof. intros H. unfold seeded_with. cbn [fmap list_fmap]. now rewrite !H. Qed.

Lemma seeded_with_ext (f f' : string -> Z) :
  (forall n, f n = f' n) -> seeded_with f = seeded_with f'.
Proof. intros H. unfold seeded_with. now rewrite !H. Qed.

Lemma names_indicator i n c k (category : sqltext) :
  Home.names (Category.mk i n c k) category = bool_decide (category = Some n).
Proof.
  unfold Home.names. cbn [Category.name].
  destruct (bool_decide_reflect (Some n = category)),
           (bool_decide_reflect (category = Some n)); congruence.
Qed.

Lemma in_getAll_delete db id x :
  In x (todoQueries.getAll
          {| db_todos := base.delete id (db_todos db);
             db_todos_seq := db_todos_seq db;
             db_categories := db_categories db |})
  <-> In x (todoQueries.getAll db) /\ Todo.id x <> id.
Proof.
  rewrite !in_getAll. cbn [db_todos]. split.
  - intros [r [[Hne Hr]%lookup_delete_Some Ht]]. eauto.
  - intros [[r [Hr Ht]] Hne]. exists r. split; [|assumption].
    apply lookup_delete_Some. auto.
Qed.

(** The state [loadData] leaves agrees with the database it read. *)
Lemma loadData_synced s db :
  exists s', Home.loadData s db = (db, Returns s')
             /\ synced db s'
             /\ Home.filteredTodos s' = todoQueries.getAll db
             /\ Home.isLoading s' = false.
Proof. eexists. split; [reflexivity|]. repeat split; auto. Qed.

Lemma synced_home_of db : synced db (home_of db).
Proof. split; reflexivity. Qed.

(** ** The handlers keep the page in step with the database *)

(** X11. When the page agrees with a reachable database and the create
    action succeeds on it, [handleTodoAdded], given the task the action
    returned, leaves the page in agreement with the new database: the list
    has the stored tasks, and the count it adds to locally is the count
    [getCategories] would now report. *)
Theorem handleTodoAdded_keeps_sync now prevState formData db db' a newTodo s :
  reachable db ->
  synced db s ->
  createTodoAction now prevState formData db = (db', Returns a) ->
  success a = Some true ->
  data a = Some newTodo ->
  synced db' (Home.handleTodoAdded newTodo s).
Proof.
  intros Hreach [Hmem Hcat] Hrun _ Hdata.
  apply reachable_categories in Hreach.
  destruct (createTodoAction_succeeded _ _ _ _ _ _ _ Hrun Hdata) as [todo Hcr].
  rewrite create_returns in Hcr. injection Hcr as <- <-.
  set (k := Z.max (db_todos_seq db) (max_rowid (db_todos db)) + 1).
  split.
  - intros x. cbn [Home.handleTodoAdded Home.todos In].
    rewrite in_getAll_insert, Hmem. split.
    + intros [<-|Hx]; [now left|right]. split; [assumption|].
      apply in_getAll in Hx as [r [Hr _]]. intros E. rewrite E in Hr.
      unfold k in Hr. now rewrite fresh_rowid in Hr.
    + intros [->|[Hx _]]; auto.
  - cbn [Home.handleTodoAdded Home.categories]. rewrite Hcat.
    rewrite !getCategories_seeded by assumption. cbn [db_todos to_Todo Todo.category snd].
    rewrite (map_seeded _ _
               (fun n => rows_in_category n (db_todos db)
                         + indicator (n_category todo) n)).
    + apply seeded_with_ext. intros n.
      rewrite rows_in_category_insert_fresh by apply fresh_rowid. reflexivity.
    + intros i n c. rewrite names_indicator. unfold indicator.
      destruct (bool_decide _); unfold Home.with_count;
        cbn [Category.id Category.name Category.color Category.count];
        f_equal; lia.
Qed.

Lemma handleTodoAdded_keeps_sync_witness :
  synced milk_only (Home.handleTodoAdded milk (home_of getDatabase)).
Proof.
  apply (handleTodoAdded_keeps_sync 50 no_state
           [("title", "Buy milk"); ("category", "shopping"); ("priority", "low")]
           getDatabase milk_only (succeeded "Todo created successfully!" milk)
           milk (home_of getDatabase)).
  - apply reachable_new.
  - apply synced_home_of.
  - vm_compute. reflexivity.
  - reflexivity.
  - reflexivity.
Defined.

(** X12. When the page agrees with a reachable database,
    [handleTodoDeleted] after [deleteTodoAction] on the same id leaves it
    in agreement with the new database, whether or not the id was there. *)
Theorem handleTodoDeleted_keeps_sync id db s :
  reachable db ->
  synced db s ->
  synced (deleteTodoAction id db).1 (Home.handleTodoDeleted id s).
Proof.
  intros Hreach%reachable_categories [Hmem Hcat].
  change (deleteTodoAction id db).1
    with {| db_todos := base.delete id (db_todos db);
            db_todos_seq := db_todos_seq db;
            db_categories := db_categories db |}.
  split.
  - intros x. cbn [Home.handleTodoDeleted Home.todos].
    rewrite in_getAll_delete, filter_In, Hmem, negb_true_iff, Z.eqb_neq.
    reflexivity.
  - cbn [Home.handleTodoDeleted Home.categories].
    rewrite (find_synced _ db id Hmem). unfold select_by_id.
    destruct (db_todos db !! id) as [r|] eqn:Hid; cbn [fmap option_fmap option_map].
    + rewrite Hcat, !getCategories_seeded by assumption.
      cbn [db_todos to_Todo Todo.category snd].
      rewrite (map_seeded _ _
                 (fun n => rows_in_category n (db_todos db)
                           - indicator (todos.category r) n)).
      * apply seeded_with_ext. intros n.
        rewrite (rows_in_category_delete n _ id r Hid). lia.
      * intros i n c. rewrite names_indicator. unfold indicator.
        destruct (bool_decide _); unfold Home.with_count;
          cbn [Category.id Category.name Category.color Category.count];
          f_equal; lia.
    + rewrite Hcat. symmetry. apply getCategories_ext; [reflexivity|].
      intros n. cbn [db_todos]. now rewrite delete_id.
Qed.

Lemma handleTodoDeleted_keeps_sync_witness :
  synced (deleteTodoAction 1 milk_and_tea).1
    (Home.handleTodoDeleted 1 (home_of milk_and_tea)).
Proof.
  apply (handleTodoDeleted_keeps_sync 1 milk_and_tea (home_of milk_and_tea)).
  - apply milk_and_tea_reachable.
  - apply synced_home_of.
Defined.

Lemma handleTodoUpdated_after_update now id u db db' t s :
  db_categories db = db_categories getDatabase ->
  synced db s ->
  todoQueries.update now id u db = (db', Returns t) ->
  synced db' (Home.handleTodoUpdated t s).
Proof.
  intros Hreach [Hmem Hcat] (r & Hid & -> & ->)%update_returns_inv.
  set (r' := set_fields u now r). split.
  - intros x. cbn [Home.handleTodoUpdated Home.todos].
    rewrite in_getAll_insert, in_replace_todo. cbn [to_Todo Todo.id fst].
    rewrite Hmem. split.
    + intros [[-> _]|H]; auto.
    + intros [->|H]; [left|auto]. split; [reflexivity|].
      exists (to_Todo (id, r)). split; [|reflexivity].
      apply Hmem, in_getAll. cbn. eauto.
  - cbn [Home.handleTodoUpdated Home.categories].
    cbn [to_Todo Todo.id fst]. rewrite (find_synced _ db id Hmem).
    unfold select_by_id. rewrite Hid. cbn [fmap option_fmap option_map].
    cbn [to_Todo Todo.category snd].
    destruct (bool_decide_reflect (todos.category r = todos.category r')) as [E|E];
      cbn [negb].
    + rewrite Hcat. symmetry. apply getCategories_ext; [reflexivity|].
      intros n. cbn [db_todos].
      rewrite (rows_in_category_replace n _ id r) by assumption.
      fold r'. rewrite E. lia.
    + rewrite Hcat, !getCategories_seeded by assumption. cbn [db_todos].
      rewrite (map_seeded _ _
                 (fun n => rows_in_category n (db_todos db)
                           - indicator (todos.category r) n
                           + indicator (todos.category r') n)).
      * apply seeded_with_ext. intros n.
        now rewrite (rows_in_category_replace n _ id r).
      * intros i n c. rewrite !names_indicator. unfold indicator.
        destruct (bool_decide_reflect (todos.category r = Some n)) as [E1|E1],
                 (bool_decide_reflect (todos.category r' = Some n)) as [E2|E2];
          try congruence; unfold Home.with_count;
          cbn [Category.id Category.name Category.color Category.count];
          f_equal; lia.
Qed.

(** X13. When the page agrees with a reachable database and a toggle or
    an edit succeeds on it, [handleTodoUpdated], given the task the action
    returned, leaves the page in agreement with the new database: the task
    is replaced in the list, and a changed category takes one from the old
    count and adds one to the new, as the database now counts them. *)
Theorem handleTodoUpdated_keeps_sync now id db db' a updatedTodo s :
  reachable db ->
  synced db s ->
  (toggleTodoAction now id db = (db', Returns a)
   \/ exists prevState formData,
        updateTodoAction now id prevState formData db = (db', Returns a)) ->
  success a = Some true ->
  data a = Some updatedTodo ->
  synced db' (Home.handleTodoUpdated updatedTodo s).
Proof.
  intros Hreach%reachable_categories Hs Hrun _ Hdata.
  destruct Hrun as [Hrun|(prevState & formData & Hrun)].
  - destruct (toggleTodoAction_succeeded _ _ _ _ _ _ Hrun Hdata) as [u Hu].
    now apply (handleTodoUpdated_after_update now id u db).
  - destruct (updateTodoAction_succeeded _ _ _ _ _ _ _ _ Hrun Hdata) as [u Hu].
    now apply (handleTodoUpdated_after_update now id u db).
Qed.

Lemma handleTodoUpdated_keeps_sync_witness :
  let tea := {| Todo.id := 2; Todo.title := "Tea"; Todo.completed := true;
                Todo.category := Some "general"; Todo.priority := Some "medium";
                Todo.createdAt := 60; Todo.updatedAt := 70 |} in
  let moved := {| Todo.id := 1; Todo.title := "Buy milk"; Todo.completed := false;
                  Todo.category := Some "work"; Todo.priority := Some "low";
                  Todo.createdAt := 50; Todo.updatedAt := 70 |} in
  synced tea_done (Home.handleTodoUpdated tea (home_of milk_and_tea))
  /\ synced (updateTodoAction 70 1 no_state
               [("title", "Buy milk"); ("category", "work"); ("priority", "low")]
               milk_and_tea).1
       (Home.handleTodoUpdated moved (home_of milk_and_tea)).
Proof.
  intros tea moved. split.
  - apply (handleTodoUpdated_keeps_sync 70 2 milk_and_tea tea_done
             (succeeded "Todo completed!" tea) tea (home_of milk_and_tea)).
    + apply milk_and_tea_reachable.
    + apply synced_home_of.
    + left. vm_compute. reflexivity.
    + reflexivity.
    + reflexivity.
  - apply (handleTodoUpdated_keeps_sync 70 1 milk_and_tea _
             (succeeded "Todo updated successfully!" moved) moved
             (home_of milk_and_tea)).
    + apply milk_and_tea_reachable.
    + apply synced_home_of.
    + right. exists no_state,
        [("title", "Buy milk"); ("category", "work"); ("priority", "low")].
      vm_compute. reflexivity.
    + reflexivity.
    + reflexivity.
Defined.

(** * Further properties of searching *)

Lemma is_percent_fold c : Sqlite.is_percent c = Ascii.eqb (Sqlite.fold c) "%".
Proof. destruct c as [[] [] [] [] [] [] [] []]; reflexivity. Qed.

Lemma is_underscore_fold c : Sqlite.is_underscore c = Ascii.eqb (Sqlite.fold c) "_".
Proof. destruct c as [[] [] [] [] [] [] [] []]; reflexivity. Qed.

Lemma same_nocase_wildcards a b :
  same_nocase a b = true ->
  Sqlite.fold a = Sqlite.fold b
  /\ Sqlite.is_percent a = Sqlite.is_percent b
  /\ Sqlite.is_underscore a = Sqlite.is_underscore b.
Proof.
  intros H%Ascii.eqb_eq. rewrite !is_percent_fold, !is_underscore_fold, H. auto.
Qed.

Lemma like_pattern_nocase p1 p2 text :
  same_nocase_string p1 p2 = true -> Sqlite.patternCompare p1 text = Sqlite.patternCompare p2 text.
Proof.
  revert p2 text. induction p1 as [|a p1 IH]; intros [|b p2] text H;
    try discriminate; [reflexivity|].
  cbn [same_nocase_string] in H. apply andb_prop in H as [Hab H].
  apply same_nocase_wildcards in Hab as (Hf & Hp & Hu).
  destruct (Sqlite.is_percent a) eqn:Ha.
  - symmetry in Hp. apply Ascii.eqb_eq in Ha, Hp. subst a b.
    induction text as [|c text IHt];
      rewrite (like_percent_cons p1), (like_percent_cons p2).
    + now rewrite (IH p2).
    + now rewrite (IH p2), IHt.
  - cbn [Sqlite.patternCompare]. rewrite Ha, <- Hp. destruct text as [|c text]; [reflexivity|].
    now rewrite Hu, Hf, (IH p2).
Qed.

Lemma same_nocase_string_app a b c d :
  same_nocase_string a b = true -> same_nocase_string c d = true ->
  same_nocase_string (a ++ c) (b ++ d) = true.
Proof.
  revert b. induction a as [|x a IH]; intros [|y b] Hab Hcd; try discriminate.
  - exact Hcd.
  - cbn [same_nocase_string] in Hab. apply andb_prop in Hab as [Hxy Hab].
    change (String x a ++ c) with (String x (a ++ c)).
    change (String y b ++ d) with (String y (b ++ d)).
    cbn [same_nocase_string]. now rewrite Hxy, IH.
Qed.

Lemma filter_ext_all {A} (f g : A -> bool) (l : list A) :
  (forall x, f x = g x) -> List.filter f l = List.filter g l.
Proof. intros H. induction l as [|x l IH]; simpl; [reflexivity|]. now rewrite H, IH. Qed.

Lemma is_nul_fold c : Sqlite.is_nul c = Ascii.eqb (Sqlite.fold c) "000".
Proof. destruct c as [[] [] [] [] [] [] [] []]; reflexivity. Qed.

Lemma utf8_bytes_of_fold c :
  Sqlite.utf8_bytes_of c = Sqlite.utf8_bytes_of (Sqlite.fold c).
Proof. destruct c as [[] [] [] [] [] [] [] []]; reflexivity. Qed.

Lemma same_nocase_string_bytes a b :
  same_nocase_string a b = true -> Sqlite.utf8_bytes a = Sqlite.utf8_bytes b.
Proof.
  revert b. induction a as [|x a IH]; intros [|y b] H; try discriminate;
    [reflexivity|].
  cbn [same_nocase_string] in H. apply andb_prop in H as [Hxy%Ascii.eqb_eq H].
  cbn [Sqlite.utf8_bytes].
  now rewrite (utf8_bytes_of_fold x), (utf8_bytes_of_fold y), Hxy, (IH b).
Qed.

Lemma same_nocase_string_until_nul a b :
  same_nocase_string a b = true ->
  same_nocase_string (Sqlite.until_nul a) (Sqlite.until_nul b) = true.
Proof.
  revert b. induction a as [|x a IH]; intros [|y b] H; try discriminate;
    [reflexivity|].
  cbn [same_nocase_string] in H. apply andb_prop in H as [Hxy H].
  cbn [Sqlite.until_nul].
  assert (E : Sqlite.is_nul x = Sqlite.is_nul y).
  { apply Ascii.eqb_eq in Hxy. now rewrite !is_nul_fold, Hxy. }
  rewrite <- E. destruct (Sqlite.is_nul x); [reflexivity|].
  cbn [same_nocase_string]. now rewrite Hxy, IH.
Qed.

Lemma like_query_nocase p1 p2 text :
  same_nocase_string p1 p2 = true -> Sqlite.like p1 text = Sqlite.like p2 text.
Proof.
  intros H. unfold Sqlite.like, Sqlite.matches.
  rewrite (same_nocase_string_bytes _ _ H).
  now rewrite (like_pattern_nocase _ _ _ (same_nocase_string_until_nul _ _ H)).
Qed.

(** X14. [search] does not look at the letter case of the query: two
    queries that differ only in the case of ASCII letters return the same
    list. *)
Theorem search_ignores_query_case query1 query2 db :
  same_nocase_string query1 query2 = true ->
  todoQueries.search query1 db = todoQueries.search query2 db.
Proof.
  intros H. unfold todoQueries.search.
  rewrite (where_rows_ext _
             (fun r => Sqlite.like ("%" ++ query2 ++ "%") (todos.title r.2)));
    [reflexivity|].
  intros r. apply like_query_nocase.
  change ("%" ++ query1 ++ "%") with (String "%" (query1 ++ "%")).
  change ("%" ++ query2 ++ "%") with (String "%" (query2 ++ "%")).
  cbn [same_nocase_string]. apply andb_true_intro. split; [reflexivity|].
  now apply same_nocase_string_app.
Qed.

Lemma search_ignores_query_case_witness :
  todoQueries.search "Milk" milk_and_tea = todoQueries.search "mILK" milk_and_tea.
Proof. apply (search_ignores_query_case "Milk" "mILK" milk_and_tea). reflexivity. Defined.

Lemma like_percent_run pattern text :
  all_percent pattern = true ->
  Sqlite.patternCompare (String "%" pattern) text = true.
Proof.
  revert text. induction pattern as [|c pattern IH]; intros text H.
  - apply like_percent.
  - cbn [all_percent] in H. apply andb_prop in H as [Hc%Ascii.eqb_eq H]. subst c.
    rewrite like_percent_cons. now rewrite IH.
Qed.

Lemma all_percent_app a b :
  all_percent a = true -> all_percent b = true -> all_percent (a ++ b) = true.
Proof.
  induction a as [|c a IH]; intros Ha Hb; [exact Hb|].
  cbn [all_percent] in Ha. apply andb_prop in Ha as [Hc Ha].
  change (String c a ++ b) with (String c (a ++ b)).
  cbn [all_percent]. now rewrite Hc, IH.
Qed.

Lemma all_percent_no_nul s : all_percent s = true -> no_nul s = true.
Proof.
  induction s as [|c s IH]; [reflexivity|]. cbn [all_percent no_nul].
  intros [Hc%Ascii.eqb_eq Hs]%andb_prop. subst c. now rewrite IH.
Qed.

Lemma all_percent_bytes s : all_percent s = true -> Sqlite.utf8_bytes s = JS.length s.
Proof.
  unfold JS.length. induction s as [|c s IH]; [reflexivity|].
  cbn [all_percent Sqlite.utf8_bytes String.length].
  intros [Hc%Ascii.eqb_eq Hs]%andb_prop. subst c.
  change (Sqlite.utf8_bytes_of "%") with 1. rewrite IH by assumption. lia.
Qed.

Lemma all_percent_trim s : all_percent s = true -> JS.trim s = s.
Proof.
  destruct s as [|c s]; [reflexivity|]. cbn [all_percent].
  intros [Hc%Ascii.eqb_eq H]%andb_prop. subst c.
  unfold JS.trim. cbn [JS.trimStart]. change (JS.isWhiteSpace "%") with false.
  cbv iota. induction s as [|c s IH]; [reflexivity|].
  cbn [all_percent] in H. apply andb_prop in H as [Hc%Ascii.eqb_eq H]. subst c.
  specialize (IH H).
  change (JS.trimEnd (String "%" (String "%" s)))
    with (match JS.trimEnd (String "%" s) with
          | EmptyString => String "%" EmptyString
          | r => String "%" r
          end).
  now rewrite IH.
Qed.

(** X15. The query is put into the LIKE pattern as it is, so its percent
    signs are wildcards. A query made of at most 49998 percent signs
    returns every task, from [search] and from the search action alike.
    With more of them the pattern exceeds the 50000 bytes LIKE accepts: on
    a table that is not empty [search] throws, and the action returns the
    empty list from its [catch]. *)
Theorem search_percent_returns_all query db :
  all_percent query = true ->
  (JS.length query <= 49998 ->
   todoQueries.search query db = (db, Returns (todoQueries.getAll db))
   /\ (query <> "" ->
       searchTodosAction query db = (db, Returns (todoQueries.getAll db))))
  /\ (49998 < JS.length query ->
      db_todos db <> ∅ ->
      todoQueries.search query db = (db, Throws SqliteError)
      /\ searchTodosAction query db = (db, Returns [])).
Proof.
  intros H.
  assert (Haction : query <> "" ->
            searchTodosAction query db
            = try_catch (todoQueries.search query) (fun _ => ret []) db).
  { intros Hne. unfold searchTodosAction. rewrite (all_percent_trim _ H).
    destruct query as [|c query]; [now destruct Hne|]. reflexivity. }
  split.
  - intros Hlen.
    assert (Hs : todoQueries.search query db = (db, Returns (todoQueries.getAll db))).
    { rewrite search_within_limit by (rewrite all_percent_bytes; assumption).
      unfold todoQueries.getAll, select_todos. do 4 f_equal.
      apply filter_ext_all. intros r. unfold title_matches, Sqlite.matches.
      rewrite no_nul_pattern by now apply all_percent_no_nul.
      change ("%" ++ query ++ "%") with (String "%" (query ++ "%")).
      apply like_percent_run. now apply all_percent_app. }
    split; [exact Hs|]. intros Hne. rewrite Haction by assumption.
    unfold try_catch. now rewrite Hs.
  - intros Hlen Hdb.
    assert (Hs : todoQueries.search query db = (db, Throws SqliteError)).
    { rewrite search_over_limit by (rewrite all_percent_bytes; assumption).
      destruct (bool_decide_reflect (map_to_list (db_todos db) = [])) as [E|E];
        [|reflexivity].
      apply map_to_list_empty_iff in E. contradiction. }
    split; [exact Hs|]. rewrite Haction.
    + unfold try_catch. now rewrite Hs.
    + intros ->. change (JS.length "") with 0 in Hlen. lia.
Qed.

Lemma search_percent_returns_all_witness :
  todoQueries.search "%" milk_and_tea
  = (milk_and_tea, Returns (todoQueries.getAll milk_and_tea))
  /\ searchTodosAction "%%" milk_and_tea
     = (milk_and_tea, Returns (todoQueries.getAll milk_and_tea))
  /\ todoQueries.search (repeat_char "%" (Z.to_nat 49999)) milk_and_tea
     = (milk_and_tea, Throws SqliteError)
  /\ searchTodosAction (repeat_char "%" (Z.to_nat 49999)) milk_and_tea
     = (milk_and_tea, Returns []).
Proof.
  assert (H1 : JS.length "%" <= 49998) by (vm_compute; discriminate).
  assert (H2 : JS.length "%%" <= 49998) by (vm_compute; discriminate).
  assert (Hp : all_percent (repeat_char "%" (Z.to_nat 49999)) = true)
    by (vm_compute; reflexivity).
  assert (H3 : 49998 < JS.length (repeat_char "%" (Z.to_nat 49999)))
    by (vm_compute; reflexivity).
  assert (Hdb : db_todos milk_and_tea <> ∅).
  { intros E. apply (f_equal (fun m => m !! 1)) in E. vm_compute in E. discriminate. }
  destruct (search_percent_returns_all "%" milk_and_tea eq_refl) as [Hin1 _].
  destruct (search_percent_returns_all "%%" milk_and_tea eq_refl) as [Hin2 _].
  destruct (search_percent_returns_all _ milk_and_tea Hp) as [_ Hout].
  destruct (Hin1 H1) as [Ha _]. destruct (Hin2 H2) as [_ Hb].
  destruct (Hout H3 Hdb) as [Hc Hd].
  split; [exact Ha|]. split; [apply Hb; discriminate|]. split; assumption.
Defined.

Lemma starts_with_refl s : starts_with Ascii.eqb s s = true.
Proof. induction s as [|c s IH]; cbn; [reflexivity|]. now rewrite Ascii.eqb_refl. Qed.

Lemma includes_refl s : includes s s = true.
Proof. unfold includes. destruct s; cbn; [reflexivity|]. now rewrite Ascii.eqb_refl, starts_with_refl. Qed.

Lemma patternCompare_self s : Sqlite.patternCompare s s = true.
Proof.
  induction s as [|c s IH]; [reflexivity|].
  destruct (Sqlite.is_percent c) eqn:Hc.
  - apply Ascii.eqb_eq in Hc. subst c.
    rewrite like_percent_cons. apply orb_true_iff. right.
    rewrite like_percent_cons. now rewrite IH.
  - cbn [Sqlite.patternCompare]. rewrite Hc, IH, Ascii.eqb_refl.
    now rewrite orb_true_r.
Qed.

Lemma until_nul_app_percent s :
  Sqlite.until_nul (s ++ "%") = Sqlite.until_nul s ++ "%"
  \/ Sqlite.until_nul (s ++ "%") = Sqlite.until_nul s.
Proof.
  induction s as [|c s IH]; [now left|].
  change (String c s ++ "%") with (String c (s ++ "%")).
  cbn [Sqlite.until_nul]. destruct (Sqlite.is_nul c); [now right|].
  destruct IH as [-> | ->]; [left|right]; reflexivity.
Qed.

(** A title matches the pattern made of itself, NUL or not. *)
Lemma matches_self s : Sqlite.matches ("%" ++ s ++ "%") s = true.
Proof.
  unfold Sqlite.matches.
  change ("%" ++ s ++ "%") with (String "%" (s ++ "%")).
  cbn [Sqlite.until_nul]. change (Sqlite.is_nul "%") with false. cbv iota.
  destruct (until_nul_app_percent s) as [-> | ->].
  - apply (like_contains_exact (Sqlite.until_nul s)), includes_refl.
  - rewrite like_percent_cons. now rewrite patternCompare_self.
Qed.

(** X16. A task the create action has just returned is found by
    searching for the title that was submitted, whatever characters the
    title has, percent signs and underscores included. *)
Theorem created_task_is_found now prevState formData title db db' a newTodo :
  JS.get formData "title" = Some title ->
  createTodoAction now prevState formData db = (db', Returns a) ->
  data a = Some newTodo ->
  exists l, searchTodosAction title db' = (db', Returns l) /\ In newTodo l.
Proof.
  intros Ht Hrun Hdata. unfold createTodoAction in Hrun. rewrite Ht in Hrun.
  destruct (JS.not (Some title) || (JS.length (JS.trim title) =? 0)%Z) eqn:Hblank.
  { injection Hrun as <- <-. discriminate. }
  destruct (JS.length (JS.trim title) >? 200)%Z eqn:Hlong.
  { injection Hrun as <- <-. discriminate. }
  unfold try_catch, bind in Hrun. rewrite create_returns in Hrun.
  unfold ret in Hrun. injection Hrun as <- <-. injection Hdata as <-.
  assert (Hbytes : Sqlite.utf8_bytes (JS.trim title) <= 49998).
  { pose proof (utf8_bytes_bounds (JS.trim title)).
    destruct (Z.gtb_spec (JS.length (JS.trim title)) 200); [discriminate|lia]. }
  unfold searchTodosAction. rewrite Hblank. unfold try_catch.
  rewrite search_within_limit by assumption.
  eexists. split; [reflexivity|].
  apply in_search_rows. split.
  - apply in_getAll_insert. now left.
  - apply matches_self.
Qed.

Lemma created_task_is_found_witness :
  exists l,
    searchTodosAction "100%_done" (createTodoAction 50 no_state
                                     [("title", "100%_done")] getDatabase).1
    = ((createTodoAction 50 no_state [("title", "100%_done")] getDatabase).1,
       Returns l)
    /\ In {| Todo.id := 1; Todo.title := "100%_done"; Todo.completed := false;
             Todo.category := Some "general"; Todo.priority := Some "medium";
             Todo.createdAt := 50; Todo.updatedAt := 50 |} l.
Proof.
  apply (created_task_is_found 50 no_state [("title", "100%_done")] "100%_done"
           getDatabase _
           (succeeded "Todo created successfully!"
              {| Todo.id := 1; Todo.title := "100%_done"; Todo.completed := false;
                 Todo.category := Some "general"; Todo.priority := Some "medium";
                 Todo.createdAt := 50; Todo.updatedAt := 50 |})).
  - reflexivity.
  - vm_compute. reflexivity.
  - reflexivity.
Defined.

(** * What the actions store *)

Lemma trimStart_starts_clean s : starts_clean (JS.trimStart s).
Proof.
  induction s as [|c s IH]; cbn; [exact I|].
  destruct (JS.isWhiteSpace c) eqn:Hc; [exact IH|exact Hc].
Qed.

Lemma trimStart_clean s : starts_clean s -> JS.trimStart s = s.
Proof. destruct s as [|c s]; cbn; [reflexivity|]. now intros ->. Qed.

Lemma trimEnd_starts_clean s : starts_clean s -> starts_clean (JS.trimEnd s).
Proof.
  destruct s as [|c s]; cbn; [auto|]. intros Hc.
  destruct (JS.trimEnd s); [rewrite Hc|]; exact Hc.
Qed.

Lemma trimEnd_idempotent s : JS.trimEnd (JS.trimEnd s) = JS.trimEnd s.
Proof.
  induction s as [|c s IH]; [reflexivity|]. cbn [JS.trimEnd].
  destruct (JS.trimEnd s) as [|d r] eqn:E.
  - destruct (JS.isWhiteSpace c) eqn:Hc; [reflexivity|].
    cbn [JS.trimEnd]. now rewrite Hc.
  - change (JS.trimEnd (String c (String d r)))
      with (match JS.trimEnd (String d r) with
            | EmptyString =>
                if JS.isWhiteSpace c then EmptyString else String c EmptyString
            | r' => String c r'
            end).
    now rewrite IH.
Qed.

Lemma trim_idempotent s : JS.trim (JS.trim s) = JS.trim s.
Proof.
  unfold JS.trim.
  rewrite (trimStart_clean (JS.trimEnd (JS.trimStart s))).
  - apply trimEnd_idempotent.
  - apply trimEnd_starts_clean, trimStart_starts_clean.
Qed.

Lemma accepted_title_stored title :
  JS.not (Some title) || (JS.length (JS.trim title) =? 0)%Z = false ->
  (JS.length (JS.trim title) >? 200)%Z = false ->
  stored_title (JS.trim title).
Proof.
  intros [_ H0%Z.eqb_neq]%orb_false_elim H200. split; [apply trim_idempotent|].
  destruct (Z.gtb_spec (JS.length (JS.trim title)) 200); [discriminate|].
  unfold JS.length in *. lia.
Qed.

Lemma served_titles db :
  served db ->
  forall k r, db_todos db !! k = Some r -> stored_title (todos.title r).
Proof.
  induction 1 as [|now prevState formData db _ IH|now id db _ IH
                  |now id prevState formData db _ IH|id db _ IH]; intros k r.
  - cbn. now rewrite lookup_empty.
  - unfold createTodoAction. destruct (JS.get formData "title") as [title|];
      [|apply IH].
    destruct (_ || _) eqn:Hb; [apply IH|].
    destruct (_ >? _)%Z eqn:Hl; [apply IH|].
    unfold try_catch, bind. rewrite create_returns. cbn [ret fst db_todos].
    rewrite lookup_insert. destruct (decide _); [|apply IH].
    intros [= <-]. cbn [todos.title n_title]. now apply accepted_title_stored.
  - destruct (db_todos db !! id) as [r0|] eqn:Hid.
    + rewrite (toggleTodoAction_existing now id db r0 Hid). cbn [fst db_todos].
      rewrite lookup_insert. destruct (decide _); [|apply IH].
      intros [= <-]. cbn. eauto.
    + rewrite toggleTodoAction_missing by assumption. apply IH.
  - unfold updateTodoAction. destruct (JS.get formData "title") as [title|];
      [|apply IH].
    destruct (_ || _) eqn:Hb; [apply IH|].
    destruct (_ >? _)%Z eqn:Hl; [apply IH|].
    unfold try_catch, bind.
    destruct (db_todos db !! id) as [r0|] eqn:Hid.
    + rewrite (update_existing _ _ _ _ r0) by (assumption || reflexivity).
      cbn [ret fst db_todos]. rewrite lookup_insert. destruct (decide _); [|apply IH].
      intros [= <-]. cbn [set_fields todos.title u_title default].
      now apply accepted_title_stored.
    + rewrite update_missing by (assumption || reflexivity). apply IH.
  - cbn. intros [_ H]%lookup_delete_Some. eauto.
Qed.

(** X17. Whatever forms and ids the four writing actions are given, from
    a new database on, every stored title is trimmed, not empty and at
    most 200 code units long. *)
Theorem served_titles_valid db :
  served db ->
  forall t, In t (todoQueries.getAll db) ->
    JS.trim (Todo.title t) = Todo.title t
    /\ 1 <= JS.length (Todo.title t) <= 200.
Proof.
  intros Hs t [r [Hr ->]]%in_getAll. apply (served_titles db Hs _ _ Hr).
Qed.

Lemma served_titles_valid_witness :
  let tea := {| Todo.id := 1; Todo.title := "Tea"; Todo.completed := false;
                Todo.category := Some "general"; Todo.priority := Some "medium";
                Todo.createdAt := 60; Todo.updatedAt := 60 |} in
  JS.trim (Todo.title tea) = Todo.title tea
  /\ 1 <= JS.length (Todo.title tea) <= 200.
Proof.
  intros tea.
  apply (served_titles_valid
           (createTodoAction 60 no_state [("title", "  Tea ")] getDatabase).1).
  - apply served_create, served_new.
  - vm_compute. auto.
Defined.

(** ** Timestamps under a clock that does not go back *)

Lemma reachable_by_times t db :
  reachable_by t db ->
  forall k r, db_todos db !! k = Some r ->
              todos.created_at r <= todos.updated_at r <= t.
Proof.
  induction 1 as [t|t now todo db _ IH Hle|t now id u db _ IH Hle|t id db _ IH];
    intros k r.
  - cbn. now rewrite lookup_empty.
  - rewrite create_returns. cbn [fst db_todos]. rewrite lookup_insert.
    destruct (decide _).
    + intros [= <-]. cbn. lia.
    + intros H%IH. lia.
  - destruct (no_keys u) eqn:Hu.
    { unfold todoQueries.update. run. rewrite Hu. cbn. intros H%IH. lia. }
    destruct (db_todos db !! id) as [r0|] eqn:Hid.
    + rewrite (update_existing _ _ _ _ r0) by assumption. cbn [fst db_todos].
      rewrite lookup_insert. destruct (decide _).
      * intros [= <-]. cbn. apply IH in Hid. lia.
      * intros H%IH. lia.
    + rewrite update_missing by assumption. cbn. intros H%IH. lia.
  - cbn. intros [_ H]%lookup_delete_Some. eauto.
Qed.

(** X18. When the clock readings of successive queries never decrease,
    every stored task was updated no earlier than it was created and no
    later than the last reading. *)
Theorem updated_not_before_created t db :
  reachable_by t db ->
  forall x, In x (todoQueries.getAll db) ->
    Todo.createdAt x <= Todo.updatedAt x <= t.
Proof.
  intros H x [r [Hr ->]]%in_getAll. cbn. apply (reachable_by_times t db H _ _ Hr).
Qed.

Lemma updated_not_before_created_witness :
  let done := {| Todo.id := 1; Todo.title := "Buy milk"; Todo.completed := true;
                 Todo.category := Some "shopping"; Todo.priority := Some "low";
                 Todo.createdAt := 50; Todo.updatedAt := 70 |} in
  Todo.createdAt done <= Todo.updatedAt done <= 70.
Proof.
  intros done.
  apply (updated_not_before_created 70
           (todoQueries.update 70 1
              {| u_title := None; u_completed := Some true;
                 u_category := None; u_priority := None |}
              (todoQueries.create 50
                 (mkNewTodo "Buy milk" false (Some "shopping") (Some "low"))
                 getDatabase).1).1).
  - apply (by_update 50); [|lia]. apply (by_create 0); [|lia]. apply by_new.
  - vm_compute. auto.
Defined.

(** * The search box and the category buttons *)

Lemma not_trim_blank query : JS.not (Some (JS.trim query)) = blank query.
Proof.
  destruct (blank query) eqn:Hb.
  - now rewrite (trim_blank _ Hb).
  - destruct (JS.trim query) eqn:Ht; [|reflexivity].
    apply blank_iff_trim_empty in Ht. congruence.
Qed.

(** X19. A search text that is not blank decides the displayed list
    alone, whatever category is selected: when its trimmed form has at
    most 49998 bytes the list is the one [todoQueries.search] returns for
    the trimmed text; when it has more, LIKE refuses the pattern and the
    list is empty. A blank text shows the selected category. *)
Theorem results_of_search_box query category db :
  (blank query = false ->
   Sqlite.utf8_bytes (JS.trim query) <= 49998 ->
   exists l, todoQueries.search (JS.trim query) db = (db, Returns l)
             /\ SearchAndFilter.results query category db = (db, Returns l))
  /\ (blank query = false ->
      49998 < Sqlite.utf8_bytes (JS.trim query) ->
      SearchAndFilter.results query category db = (db, Returns []))
  /\ (blank query = true ->
      SearchAndFilter.results query category db
      = getTodosByCategoryAction category db).
Proof.
  assert (Hsearch : blank query = false ->
            SearchAndFilter.results query category db
            = try_catch
                (try_catch (todoQueries.search (JS.trim query)) (fun _ => ret []))
                (fun _ => ret []) db).
  { intros Hb. unfold SearchAndFilter.results. rewrite not_trim_blank, Hb.
    cbn [negb]. unfold searchTodosAction.
    assert (Hq : JS.not (Some query) = false).
    { destruct query; [discriminate|reflexivity]. }
    assert (Hl : (JS.length (JS.trim query) =? 0)%Z = false).
    { apply Z.eqb_neq. intros H. unfold JS.length in H.
      destruct (JS.trim query) eqn:Ht; [|cbn in H; lia].
      apply blank_iff_trim_empty in Ht. congruence. }
    now rewrite Hq, Hl. }
  split; [|split].
  - intros Hb Hlen. eexists. split; [now apply search_within_limit|].
    rewrite Hsearch by assumption. unfold try_catch.
    now rewrite search_within_limit.
  - intros Hb Hlen. rewrite Hsearch by assumption. unfold try_catch.
    rewrite search_over_limit by assumption.
    now destruct (bool_decide _).
  - intros Hb. unfold SearchAndFilter.results. rewrite not_trim_blank, Hb.
    cbn [negb]. unfold getTodosByCategoryAction.
    destruct (String.eqb category "all"); reflexivity.
Qed.

Lemma results_of_search_box_witness :
  (exists l, todoQueries.search "milk" milk_and_tea = (milk_and_tea, Returns l)
             /\ SearchAndFilter.results " milk " "work" milk_and_tea
                = (milk_and_tea, Returns l))
  /\ SearchAndFilter.results (repeat_char "%" (Z.to_nat 49999)) "work" milk_and_tea
     = (milk_and_tea, Returns [])
  /\ SearchAndFilter.results "  " "work" milk_and_tea
     = getTodosByCategoryAction "work" milk_and_tea.
Proof.
  destruct (results_of_search_box " milk " "work" milk_and_tea) as (H1 & _ & _).
  destruct (results_of_search_box (repeat_char "%" (Z.to_nat 49999)) "work"
              milk_and_tea) as (_ & H2 & _).
  destruct (results_of_search_box "  " "work" milk_and_tea) as (_ & _ & H3).
  split; [|split].
  - apply H1; [reflexivity|vm_compute; discriminate].
  - apply H2; vm_compute; reflexivity.
  - apply H3. reflexivity.
Defined.

Lemma tasks_in_category_eq name db :
  tasks_in_category name db = rows_in_category name (db_todos db).
Proof. apply tasks_in_category_rows. Qed.

Lemma all_count_seeded (f : string -> Z) :
  SearchAndFilter.all_count (seeded_with f)
  = f "general" + f "personal" + f "shopping" + f "work".
Proof. unfold SearchAndFilter.all_count, seeded_with. cbn. lia. Qed.

Lemma length_filter_seeded (l : list Todo.t) :
  Z.of_nat (List.length (List.filter in_seeded_category l))
  = Z.of_nat (List.length
      (List.filter (fun t => bool_decide (Todo.category t = Some "general")) l))
    + Z.of_nat (List.length
      (List.filter (fun t => bool_decide (Todo.category t = Some "personal")) l))
    + Z.of_nat (List.length
      (List.filter (fun t => bool_decide (Todo.category t = Some "shopping")) l))
    + Z.of_nat (List.length
      (List.filter (fun t => bool_decide (Todo.category t = Some "work")) l)).
Proof.
  induction l as [|t l IH]; [reflexivity|].
  cbn [List.filter]. unfold in_seeded_category at 1.
  destruct (bool_decide_reflect (Todo.category t = Some "general")) as [E1|E1],
           (bool_decide_reflect (Todo.category t = Some "personal")) as [E2|E2],
           (bool_decide_reflect (Todo.category t = Some "shopping")) as [E3|E3],
           (bool_decide_reflect (Todo.category t = Some "work")) as [E4|E4];
    try (rewrite E1 in *; discriminate);
    try (rewrite E2 in *; discriminate);
    try (rewrite E3 in *; discriminate);
    cbn [orb List.length]; lia.
Qed.

Lemma length_filter_le {A} (f : A -> bool) (l : list A) :
  (List.length (List.filter f l) <= List.length l)%nat.
Proof. induction l as [|x l IH]; cbn; [lia|]. destruct (f x); cbn; lia. Qed.

(** X20. On every reachable database the number on the "All" button, the
    sum of the category counts, is the number of tasks whose category is
    one of the four seeded names. Tasks with another category, or none,
    are left out, so the number is at most the number of tasks. *)
Theorem all_count_counts_seeded db :
  reachable db ->
  SearchAndFilter.all_count (todoQueries.getCategories db)
  = Z.of_nat (List.length (List.filter in_seeded_category (todoQueries.getAll db)))
  /\ SearchAndFilter.all_count (todoQueries.getCategories db)
     <= Z.of_nat (List.length (todoQueries.getAll db)).
Proof.
  intros Hc%reachable_categories.
  assert (E : SearchAndFilter.all_count (todoQueries.getCategories db)
              = Z.of_nat (List.length
                            (List.filter in_seeded_category (todoQueries.getAll db)))).
  { rewrite getCategories_seeded, all_count_seeded by assumption.
    cbv beta. rewrite <- !tasks_in_category_eq. unfold tasks_in_category.
    now rewrite length_filter_seeded. }
  split; [exact E|]. rewrite E.
  apply inj_le, length_filter_le.
Qed.

Lemma all_count_counts_seeded_witness :
  SearchAndFilter.all_count
    (todoQueries.getCategories
       (todoQueries.create 50 (mkNewTodo "Call" false (Some "family") (Some "low"))
          getDatabase).1) = 0
  /\ List.length
       (todoQueries.getAll
          (todoQueries.create 50 (mkNewTodo "Call" false (Some "family") (Some "low"))
             getDatabase).1) = 1%nat.
Proof.
  destruct (all_count_counts_seeded
              (todoQueries.create 50
                 (mkNewTodo "Call" false (Some "family") (Some "low"))
                 getDatabase).1) as [E _].
  { apply reachable_create, reachable_new. }
  split; [rewrite E|]; vm_compute; reflexivity.
Defined.

(** * The order of the filtered lists and of the page *)

Lemma select_precedes condition db a b :
  precedes (to_Todo <$> select_todos condition db) a b ->
  exists ra rb, a = to_Todo ra /\ b = to_Todo rb /\ order_by ra rb
                /\ db_todos db !! ra.1 = Some ra.2
                /\ db_todos db !! rb.1 = Some rb.2.
Proof.
  intros (i & j & Hij & Hi & Hj). rewrite list_lookup_fmap in Hi, Hj.
  destruct (select_todos condition db !! i) as [ra|] eqn:Ha; [|discriminate].
  destruct (select_todos condition db !! j) as [rb|] eqn:Hb; [|discriminate].
  injection Hi as <-. injection Hj as <-. exists ra, rb.
  assert (Hin : forall k r, select_todos condition db !! k = Some r ->
                            db_todos db !! r.1 = Some r.2).
  { intros k r Hk. apply (in_select_todos condition), list_elem_of_In,
      list_elem_of_lookup. eauto. }
  repeat split; eauto.
  eapply (StronglySorted_lookup order_by); try eassumption.
  apply StronglySorted_merge_sort; apply _.
Qed.

Lemma select_order condition db :
  booleans_stored db ->
  let l := to_Todo <$> select_todos condition db in
  (forall a b, In a l -> In b l ->
     Todo.completed a = false -> Todo.completed b = true -> precedes l a b)
  /\ (forall a b, precedes l a b -> Todo.completed a = Todo.completed b ->
        Todo.createdAt b <= Todo.createdAt a)
  /\ (forall a b, In a l -> In b l -> Todo.completed a = Todo.completed b ->
        Todo.createdAt b < Todo.createdAt a -> precedes l a b).
Proof.
  intros Hr l. split; [|split].
  - intros a b Ha Hb Hca Hcb.
    destruct (precedes_total l a b Ha Hb) as [H|H]; [congruence|exact H|].
    exfalso. apply select_precedes in H as (rb & ra & -> & -> & Hord & Hsb & Hsa).
    apply Hr, Boolean_stored in Hsa, Hsb. simpl in Hca, Hcb.
    rewrite Hca in Hsa. rewrite Hcb in Hsb.
    unfold order_by in Hord. lia.
  - intros a b (ra & rb & -> & -> & Hord & Hsa & Hsb)%select_precedes Hc.
    apply Hr, Boolean_stored in Hsa, Hsb. simpl in *.
    rewrite Hc in Hsa. unfold order_by in Hord. lia.
  - intros a b Ha Hb Hc Ht.
    destruct (precedes_total l a b Ha Hb) as [H|H]; [intros ->; lia|exact H|].
    exfalso. apply select_precedes in H as (rb & ra & -> & -> & Hord & Hsb & Hsa).
    apply Hr, Boolean_stored in Hsa, Hsb. simpl in *.
    rewrite Hc in Hsa. unfold order_by in Hord. lia.
Qed.

(** X21. On every reachable database the lists [getByCategory] and
    [search] return are ordered as the list of all tasks is: incomplete
    tasks before completed ones, and among tasks of one status a task
    created strictly later before one created earlier. *)
Theorem filtered_lists_order db l :
  reachable db ->
  (exists category, l = todoQueries.getByCategory category db)
  \/ (exists query db', todoQueries.search query db = (db', Returns l)) ->
  (forall a b, In a l -> In b l ->
     Todo.completed a = false -> Todo.completed b = true -> precedes l a b)
  /\ (forall a b, precedes l a b -> Todo.completed a = Todo.completed b ->
        Todo.createdAt b <= Todo.createdAt a)
  /\ (forall a b, In a l -> In b l -> Todo.completed a = Todo.completed b ->
        Todo.createdAt b < Todo.createdAt a -> precedes l a b).
Proof.
  intros Hr%reachable_booleans
    [[category ->]|(query & db' & [_ ->]%search_returns_inv)];
    now apply select_order.
Qed.

Lemma filtered_lists_order_witness :
  let milk' := {| Todo.id := 1; Todo.title := "Buy milk"; Todo.completed := false;
                  Todo.category := Some "shopping"; Todo.priority := Some "low";
                  Todo.createdAt := 50; Todo.updatedAt := 50 |} in
  let tea := {| Todo.id := 2; Todo.title := "Tea"; Todo.completed := true;
                Todo.category := Some "general"; Todo.priority := Some "medium";
                Todo.createdAt := 60; Todo.updatedAt := 70 |} in
  precedes [milk'; tea] milk' tea.
Proof.
  intros milk' tea.
  assert (Hq : (exists category,
                  [milk'; tea] = todoQueries.getByCategory category tea_done)
               \/ (exists query db',
                     todoQueries.search query tea_done = (db', Returns [milk'; tea])))
    by (right; exists "_", tea_done; vm_compute; reflexivity).
  destruct (filtered_lists_order tea_done [milk'; tea] tea_done_reachable Hq)
    as (H & _).
  apply H; [cbn; auto..|reflexivity|reflexivity].
Defined.

Lemma createTodoAction_succeeded_incomplete now prevState formData db db' a t :
  createTodoAction now prevState formData db = (db', Returns a) ->
  data a = Some t ->
  exists todo, todoQueries.create now todo db = (db', Returns t)
               /\ n_completed todo = false.
Proof.
  unfold createTodoAction. destruct (JS.get formData "title") as [title|].
  2: { intros [= <- <-]. discriminate. }
  destruct (_ || _). { intros [= <- <-]. discriminate. }
  destruct (_ >? _)%Z. { intros [= <- <-]. discriminate. }
  unfold try_catch, bind.
  destruct (todoQueries.create _ _ _) as [db1 [t1|e]] eqn:Hcr.
  - unfold ret. intros [= <- <-] [= <-]. eauto.
  - unfold ret. intros [= <- <-]. discriminate.
Qed.

Lemma reachable_by_reachable t db : reachable_by t db -> reachable db.
Proof. induction 1; now constructor. Qed.

Lemma precedes_cons {A} (x : A) (l : list A) a b :
  precedes (x :: l) a b -> (a = x /\ In b l) \/ precedes l a b.
Proof.
  intros (i & j & Hij & Hi & Hj). destruct j as [|j]; [lia|].
  destruct i as [|i]; cbn in Hi, Hj.
  - left. injection Hi as <-. split; [reflexivity|].
    apply list_elem_of_In, list_elem_of_lookup. eauto.
  - right. exists i, j. split; [lia|auto].
Qed.

(** X22. When the page lists the tasks as [getAll] returned them and the
    clock has not gone back, the list [handleTodoAdded] makes by putting
    the created task in front is again in the order of the database: it
    holds the tasks of the new database, incomplete before completed and
    newer before older. *)
Theorem handleTodoAdded_keeps_order t now prevState formData db db' a newTodo s :
  reachable_by t db ->
  t <= now ->
  Home.todos s = todoQueries.getAll db ->
  createTodoAction now prevState formData db = (db', Returns a) ->
  data a = Some newTodo ->
  let l := Home.todos (Home.handleTodoAdded newTodo s) in
  l ≡ₚ todoQueries.getAll db'
  /\ forall x y, precedes l x y ->
       (Todo.completed x = true -> Todo.completed y = true)
       /\ (Todo.completed x = Todo.completed y ->
           Todo.createdAt y <= Todo.createdAt x).
Proof.
  intros Hby Hle Hs Hrun Hdata l. subst l.
  cbn [Home.handleTodoAdded Home.todos]. rewrite Hs.
  destruct (createTodoAction_succeeded_incomplete _ _ _ _ _ _ _ Hrun Hdata)
    as [todo [Hcr Hn]].
  rewrite create_returns in Hcr. injection Hcr as <- <-. split.
  - unfold todoQueries.getAll, select_todos.
    rewrite !merge_sort_Permutation, !(filter_all (fun _ => true)) by reflexivity.
    cbn [db_todos]. rewrite map_to_list_insert by apply fresh_rowid.
    reflexivity.
  - pose proof (reachable_booleans _ (reachable_by_reachable _ _ Hby)) as Hb.
    intros x y [[-> Hy]|H]%precedes_cons.
    + apply in_getAll in Hy as [r [Hr ->]].
      pose proof (reachable_by_times _ _ Hby _ _ Hr) as Ht.
      cbn [to_Todo Todo.completed Todo.createdAt snd todos.completed
             todos.created_at].
      rewrite Hn. split; [discriminate|intros _; lia].
    + apply getAll_precedes in H as (ra & rb & -> & -> & Hord & Hsa & Hsb).
      apply Hb, Boolean_stored in Hsa, Hsb. cbn [to_Todo Todo.completed Todo.createdAt].
      unfold order_by in Hord. split.
      * intros Hx. rewrite Hx in Hsa.
        destruct (JS.Boolean (todos.completed rb.2)); [reflexivity|lia].
      * intros Hc. rewrite Hc in Hsa. lia.
Qed.

Lemma handleTodoAdded_keeps_order_witness :
  let tea := {| Todo.id := 2; Todo.title := "Tea"; Todo.completed := false;
                Todo.category := Some "general"; Todo.priority := Some "medium";
                Todo.createdAt := 60; Todo.updatedAt := 60 |} in
  let l := Home.todos (Home.handleTodoAdded tea (home_of milk_only)) in
  l ≡ₚ todoQueries.getAll milk_and_tea
  /\ forall x y, precedes l x y ->
       (Todo.completed x = true -> Todo.completed y = true)
       /\ (Todo.completed x = Todo.completed y ->
           Todo.createdAt y <= Todo.createdAt x).
Proof.
  intros tea.
  apply (handleTodoAdded_keeps_order 50 60 no_state [("title", "Tea")]
           milk_only milk_and_tea (succeeded "Todo created successfully!" tea)
           tea (home_of milk_only)).
  - assert (E : milk_only
                = (todoQueries.create 50
                     (mkNewTodo "Buy milk" false (Some "shopping") (Some "low"))
                     getDatabase).1) by (vm_compute; reflexivity).
    rewrite E. apply (by_create 0); [apply by_new|lia].
  - lia.
  - reflexivity.
  - vm_compute. reflexivity.
  - reflexivity.
Defined.
